(** * VoipClient: a shallow embedding of [voip_client.cc]

    The session controller of the VoIP example client is embedded as
    functions in a small state-and-fault monad.  The client object, the
    task queue of its worker thread and the chronological record of every
    call made to an external collaborator (audio engine, socket layer,
    completion callback, log) are explicit.  What the collaborators answer
    during one task is supplied by an [Environment]. *)

From stdpp Require Import gmap strings list fin_maps pretty.
From Stdlib Require Import ZArith Lia Strings.Byte.

Local Open Scope Z_scope.

(** ** The parts of the WebRTC API the client touches *)

Module webrtc.

(** [enum class ChannelId : int]. *)
Definition ChannelId := Z.

(** The status every engine call returns; the client only ever compares
    it with [kOk]. *)
Inductive VoipResult := kOk | kInvalidArgument | kFailedPrecondition | kInternal.

Global Instance VoipResult_eq_dec : EqDecision VoipResult.
Proof. solve_decision. Defined.

Record SdpAudioFormat := {
  name : string;
  clockrate_hz : Z;
  num_channels : Z;
  parameters : list (string * string)
}.

(** Only [format] is read by the client. *)
Record AudioCodecSpec := { format : SdpAudioFormat }.

Record PacketOptions := { packet_id : Z }.

End webrtc.

Module rtc.

(** [rtc::SocketAddress(hostname, port)], kept as the two constructor
    arguments. *)
Record SocketAddress := { hostname : string; port : Z }.

(** [rtc::SocketAddress()] *)
Definition SocketAddress_default : SocketAddress :=
  {| hostname := ""; port := 0 |}.

(** The member functions connected to a socket's [SignalReadPacket]. *)
Inductive Slot := OnSignalReadRTPPacket | OnSignalReadRTCPPacket.

Record AsyncUDPSocket := {
  bound_address : SocketAddress;
  closed : bool;
  SignalReadPacket : list Slot
}.

Definition Close (s : AsyncUDPSocket) : AsyncUDPSocket :=
  {| bound_address := bound_address s; closed := true;
     SignalReadPacket := SignalReadPacket s |}.

Definition connect (sl : Slot) (s : AsyncUDPSocket) : AsyncUDPSocket :=
  {| bound_address := bound_address s; closed := closed s;
     SignalReadPacket := SignalReadPacket s ++ [sl] |}.

End rtc.

Import webrtc rtc.

(** ** C++ [int] arithmetic *)

Definition INT_MAX : Z := 2147483647.
Definition INT_MIN : Z := -2147483648.

Definition in_int_range (z : Z) : bool := (INT_MIN <=? z) && (z <=? INT_MAX).

(** ** Observable interaction *)

(** Which of the two member sockets an operation goes through. *)
Inductive SocketMember := rtp_socket | rtcp_socket.

(** The calls the client makes on [voip_engine_] with a channel id
    ([Base()], [Codec()] and [Network()] interfaces). *)
Module VoipEngine.
Inductive Call :=
| ReleaseChannel (c : ChannelId)
| StartSend (c : ChannelId)
| StopSend (c : ChannelId)
| StartPlayout (c : ChannelId)
| StopPlayout (c : ChannelId)
| SetSendCodec (c : ChannelId) (payload_type : Z) (fmt : SdpAudioFormat)
| SetReceiveCodecs (c : ChannelId) (decoder_specs : gmap Z SdpAudioFormat)
| ReceivedRTPPacket (c : ChannelId) (packet : list byte)
| ReceivedRTCPPacket (c : ChannelId) (packet : list byte).
End VoipEngine.

(** [VoipClient::Callback], one constructor per virtual method. *)
Inductive CallbackEvent :=
| OnStartSessionCompleted (success : bool)
| OnStopSessionCompleted (success : bool)
| OnStartSendCompleted (success : bool)
| OnStopSendCompleted (success : bool)
| OnStartPlayoutCompleted (success : bool)
| OnStopPlayoutCompleted (success : bool).

Inductive Event :=
| EvCreateChannel (ret : ChannelId)
| EvEngine (call : VoipEngine.Call) (ret : VoipResult)
| EvSocketCreate (which : SocketMember) (addr : SocketAddress) (ok : bool)
| EvConnect (which : SocketMember) (sl : Slot)
| EvClose (which : SocketMember)
| EvSendTo (which : SocketMember) (data : list byte) (addr : SocketAddress) (ret : Z)
| EvCallback (e : CallbackEvent)
| EvLog (msg : string).

(** What the collaborators answer while one task runs.  No member
    function calls the same engine method twice, so one field per call
    site is fully general.  [SendTo] returns a C++ [int]; the client only
    applies [!] to it. *)
Record Environment := {
  RTC_DCHECK_IS_ON : bool;
  CreateChannel_ret : ChannelId;
  ReleaseChannel_ret : VoipResult;
  StartSend_ret : VoipResult;
  StopSend_ret : VoipResult;
  StartPlayout_ret : VoipResult;
  StopPlayout_ret : VoipResult;
  SetSendCodec_ret : VoipResult;
  SetReceiveCodecs_ret : VoipResult;
  ReceivedRTPPacket_ret : VoipResult;
  ReceivedRTCPPacket_ret : VoipResult;
  rtp_Create_ok : bool;
  rtcp_Create_ok : bool;
  rtp_SendTo_ret : Z;
  rtcp_SendTo_ret : Z
}.

(** ** The client object *)

(** A unit of work posted to [voip_thread_]. *)
Inductive Task :=
| TSetEncoder (encoder : string)
| TSetDecoders (decoders : list string)
| TSetLocalAddress (ip_address : string) (port_number : Z)
| TSetRemoteAddress (ip_address : string) (port_number : Z)
| TStartSession
| TStopSession
| TStartSend
| TStopSend
| TStartPlayout
| TStopPlayout
| TSendRtpPacket (packet_copy : list byte)
| TSendRtcpPacket (packet_copy : list byte)
| TReadRTPPacket (packet_copy : list byte)
| TReadRTCPPacket (packet_copy : list byte).

(** The data members of [class VoipClient].  [voip_thread_] is the FIFO
    queue of posted tasks; [callback_] records whether [callback_.lock()]
    yields a live subscriber. *)
Record VoipClient := {
  voip_thread_ : list Task;
  callback_ : bool;
  supported_codecs_ : list AudioCodecSpec;
  channel_ : option ChannelId;
  rtp_socket_ : option AsyncUDPSocket;
  rtcp_socket_ : option AsyncUDPSocket;
  rtp_local_address_ : SocketAddress;
  rtcp_local_address_ : SocketAddress;
  rtp_remote_address_ : SocketAddress;
  rtcp_remote_address_ : SocketAddress
}.

Definition set_voip_thread_ (q : list Task) (v : VoipClient) : VoipClient :=
  {| voip_thread_ := q; callback_ := callback_ v;
     supported_codecs_ := supported_codecs_ v; channel_ := channel_ v;
     rtp_socket_ := rtp_socket_ v; rtcp_socket_ := rtcp_socket_ v;
     rtp_local_address_ := rtp_local_address_ v;
     rtcp_local_address_ := rtcp_local_address_ v;
     rtp_remote_address_ := rtp_remote_address_ v;
     rtcp_remote_address_ := rtcp_remote_address_ v |}.

Definition set_channel_ (c : option ChannelId) (v : VoipClient) : VoipClient :=
  {| voip_thread_ := voip_thread_ v; callback_ := callback_ v;
     supported_codecs_ := supported_codecs_ v; channel_ := c;
     rtp_socket_ := rtp_socket_ v; rtcp_socket_ := rtcp_socket_ v;
     rtp_local_address_ := rtp_local_address_ v;
     rtcp_local_address_ := rtcp_local_address_ v;
     rtp_remote_address_ := rtp_remote_address_ v;
     rtcp_remote_address_ := rtcp_remote_address_ v |}.

Definition set_rtp_socket_ (s : option AsyncUDPSocket) (v : VoipClient) : VoipClient :=
  {| voip_thread_ := voip_thread_ v; callback_ := callback_ v;
     supported_codecs_ := supported_codecs_ v; channel_ := channel_ v;
     rtp_socket_ := s; rtcp_socket_ := rtcp_socket_ v;
     rtp_local_address_ := rtp_local_address_ v;
     rtcp_local_address_ := rtcp_local_address_ v;
     rtp_remote_address_ := rtp_remote_address_ v;
     rtcp_remote_address_ := rtcp_remote_address_ v |}.

Definition set_rtcp_socket_ (s : option AsyncUDPSocket) (v : VoipClient) : VoipClient :=
  {| voip_thread_ := voip_thread_ v; callback_ := callback_ v;
     supported_codecs_ := supported_codecs_ v; channel_ := channel_ v;
     rtp_socket_ := rtp_socket_ v; rtcp_socket_ := s;
     rtp_local_address_ := rtp_local_address_ v;
     rtcp_local_address_ := rtcp_local_address_ v;
     rtp_remote_address_ := rtp_remote_address_ v;
     rtcp_remote_address_ := rtcp_remote_address_ v |}.

Definition set_rtp_local_address_ (a : SocketAddress) (v : VoipClient) : VoipClient :=
  {| voip_thread_ := voip_thread_ v; callback_ := callback_ v;
     supported_codecs_ := supported_codecs_ v; channel_ := channel_ v;
     rtp_socket_ := rtp_socket_ v; rtcp_socket_ := rtcp_socket_ v;
     rtp_local_address_ := a;
     rtcp_local_address_ := rtcp_local_address_ v;
     rtp_remote_address_ := rtp_remote_address_ v;
     rtcp_remote_address_ := rtcp_remote_address_ v |}.

Definition set_rtcp_local_address_ (a : SocketAddress) (v : VoipClient) : VoipClient :=
  {| voip_thread_ := voip_thread_ v; callback_ := callback_ v;
     supported_codecs_ := supported_codecs_ v; channel_ := channel_ v;
     rtp_socket_ := rtp_socket_ v; rtcp_socket_ := rtcp_socket_ v;
     rtp_local_address_ := rtp_local_address_ v;
     rtcp_local_address_ := a;
     rtp_remote_address_ := rtp_remote_address_ v;
     rtcp_remote_address_ := rtcp_remote_address_ v |}.

Definition set_rtp_remote_address_ (a : SocketAddress) (v : VoipClient) : VoipClient :=
  {| voip_thread_ := voip_thread_ v; callback_ := callback_ v;
     supported_codecs_ := supported_codecs_ v; channel_ := channel_ v;
     rtp_socket_ := rtp_socket_ v; rtcp_socket_ := rtcp_socket_ v;
     rtp_local_address_ := rtp_local_address_ v;
     rtcp_local_address_ := rtcp_local_address_ v;
     rtp_remote_address_ := a;
     rtcp_remote_address_ := rtcp_remote_address_ v |}.

Definition set_rtcp_remote_address_ (a : SocketAddress) (v : VoipClient) : VoipClient :=
  {| voip_thread_ := voip_thread_ v; callback_ := callback_ v;
     supported_codecs_ := supported_codecs_ v; channel_ := channel_ v;
     rtp_socket_ := rtp_socket_ v; rtcp_socket_ := rtcp_socket_ v;
     rtp_local_address_ := rtp_local_address_ v;
     rtcp_local_address_ := rtcp_local_address_ v;
     rtp_remote_address_ := rtp_remote_address_ v;
     rtcp_remote_address_ := a |}.

Definition socket_member (which : SocketMember) (v : VoipClient) : option AsyncUDPSocket :=
  match which with
  | rtp_socket => rtp_socket_ v
  | rtcp_socket => rtcp_socket_ v
  end.

Definition set_socket_member (which : SocketMember) (s : option AsyncUDPSocket)
    (v : VoipClient) : VoipClient :=
  match which with
  | rtp_socket => set_rtp_socket_ s v
  | rtcp_socket => set_rtcp_socket_ s v
  end.

(** The client together with everything it has done to the outside so
    far, oldest event first. *)
Record World := { this : VoipClient; trace : list Event }.

(** ** The monad of member functions *)

Inductive Fault :=
| CheckFailed        (* RTC_CHECK: the process is terminated *)
| DCheckFailed       (* RTC_DCHECK in a build that has them *)
| NullDereference    (* -> through an empty unique_ptr *)
| SignedOverflow     (* int arithmetic out of range *)
| OutOfBounds.       (* reading past the end of a caller's buffer *)

Inductive Outcome (A : Type) :=
| Returned (a : A) (w : World)
| Crashed (f : Fault) (w : World).
Arguments Returned {A} a w.
Arguments Crashed {A} f w.

Definition M (A : Type) : Type := World -> Outcome A.

Definition ret {A} (a : A) : M A := fun w => Returned a w.

Definition bind {A B} (m : M A) (k : A -> M B) : M B :=
  fun w => match m w with
           | Returned a w' => k a w'
           | Crashed f w' => Crashed f w'
           end.

Notation "x <- m ;; k" := (bind m (fun x => k))
  (at level 100, m at next level, k at level 200, right associativity).
Notation "m ;; k" := (bind m (fun _ => k))
  (at level 100, k at level 200, right associativity).

Definition fault {A} (f : Fault) : M A := fun w => Crashed f w.

Definition get : M VoipClient := fun w => Returned (this w) w.

Definition modify (f : VoipClient -> VoipClient) : M unit :=
  fun w => Returned tt {| this := f (this w); trace := trace w |}.

Definition emit (e : Event) : M unit :=
  fun w => Returned tt {| this := this w; trace := trace w ++ [e] |}.

(** ** Macros and helpers of the translation unit *)

Definition RTC_LOG (msg : string) : M unit := emit (EvLog msg).

(** [RTC_CHECK(cond)]: fatal in every build. *)
Definition RTC_CHECK (cond : bool) : M unit :=
  if cond then ret tt else fault CheckFailed.

(** [voip_thread_->PostTask(...)]: append to the FIFO queue. *)
Definition PostTask (t : Task) : M unit :=
  modify (fun v => set_voip_thread_ (voip_thread_ v ++ [t]) v).

(** The [RUN_ON_VOIP_THREAD] macro.  [IsCurrent] is the answer of
    [voip_thread_->IsCurrent()] for the calling thread.  The body only
    ever runs with [IsCurrent = true], so the macro's closing
    [RTC_DCHECK_RUN_ON] holds by construction. *)
Definition RUN_ON_VOIP_THREAD (IsCurrent : bool) (method : Task) (body : M unit) : M unit :=
  if negb IsCurrent then PostTask method else body.

(** [auto callback = callback_.lock(); if (callback) callback->e;] *)
Definition notify (e : CallbackEvent) : M unit :=
  v <- get ;;
  if callback_ v then emit (EvCallback e) else ret tt.

(** [std::find(l.begin(), l.end(), x) != l.end()] *)
Fixpoint std_find (l : list string) (x : string) : bool :=
  match l with
  | [] => false
  | y :: l' => if String.eqb y x then true else std_find l' x
  end.

(** [std::map::insert]: an existing key keeps its value. *)
Definition map_insert (k : Z) (f : SdpAudioFormat) (m : gmap Z SdpAudioFormat)
    : gmap Z SdpAudioFormat :=
  match m !! k with
  | Some _ => m
  | None => <[k := f]> m
  end.

(** [p->member] through a [unique_ptr]. *)
Definition deref (which : SocketMember) : M AsyncUDPSocket :=
  v <- get ;;
  match socket_member which v with
  | Some s => ret s
  | None => fault NullDereference
  end.

(** [a + b] on [int]. *)
Definition int_add (a b : Z) : M Z :=
  if in_int_range (a + b) then ret (a + b) else fault SignedOverflow.

(** [std::vector<uint8_t>(p, p + n)], where [buffer] holds the bytes that
    are readable from [p]. *)
Definition vector_from_range (buffer : list byte) (n : nat) : M (list byte) :=
  if (n <=? length buffer)%nat then ret (firstn n buffer) else fault OutOfBounds.

Section Members.

Variable env : Environment.

(** [RTC_DCHECK(cond)]: checked only in builds that enable it. *)
Definition RTC_DCHECK (cond : bool) : M unit :=
  if RTC_DCHECK_IS_ON env && negb cond then fault DCheckFailed else ret tt.

(** One call into [voip_engine_], recorded with the status it returns. *)
Definition engine (call : VoipEngine.Call) (answer : VoipResult) : M VoipResult :=
  emit (EvEngine call answer) ;; ret answer.

Definition Base_CreateChannel : M ChannelId :=
  emit (EvCreateChannel (CreateChannel_ret env)) ;;
  ret (CreateChannel_ret env).

(** [rtc::AsyncUDPSocket::Create(socketserver, addr)]: a fresh open
    socket bound to [addr], or [nullptr]. *)
Definition AsyncUDPSocket_Create (which : SocketMember) (addr : SocketAddress)
    : M (option AsyncUDPSocket) :=
  let ok := match which with
            | rtp_socket => rtp_Create_ok env
            | rtcp_socket => rtcp_Create_ok env
            end in
  emit (EvSocketCreate which addr ok) ;;
  ret (if ok
       then Some {| bound_address := addr; closed := false; SignalReadPacket := [] |}
       else None).

(** [socket->SignalReadPacket.connect(this, slot)] *)
Definition SignalReadPacket_connect (which : SocketMember) (sl : Slot) : M unit :=
  s <- deref which ;;
  emit (EvConnect which sl) ;;
  modify (set_socket_member which (Some (connect sl s))).

(** [socket->Close()] *)
Definition socket_Close (which : SocketMember) : M unit :=
  s <- deref which ;;
  emit (EvClose which) ;;
  modify (set_socket_member which (Some (Close s))).

(** [socket->SendTo(data, size, addr, options)] *)
Definition socket_SendTo (which : SocketMember) (data : list byte) (addr : SocketAddress)
    : M Z :=
  _ <- deref which ;;
  let r := match which with
           | rtp_socket => rtp_SendTo_ret env
           | rtcp_socket => rtcp_SendTo_ret env
           end in
  emit (EvSendTo which data addr r) ;;
  ret r.

(** [GetPayloadType] of the anonymous namespace. *)
Definition GetPayloadType (codec_name : string) : M Z :=
  RTC_DCHECK (String.eqb codec_name "PCMU" || String.eqb codec_name "PCMA" ||
              String.eqb codec_name "G722" || String.eqb codec_name "opus" ||
              String.eqb codec_name "ISAC" || String.eqb codec_name "ILBC") ;;
  if String.eqb codec_name "PCMU" then ret 0
  else if String.eqb codec_name "PCMA" then ret 8
  else if String.eqb codec_name "G722" then ret 9
  else if String.eqb codec_name "opus" then ret 96
  else if String.eqb codec_name "ISAC" then ret 97
  else if String.eqb codec_name "ILBC" then ret 98
  else (RTC_DCHECK false ;; ret (-1)).

(** [VoipClient::GetSupportedCodecs] *)
Definition GetSupportedCodecs (v : VoipClient) : list string :=
  map (fun spec => name (format spec)) (supported_codecs_ v).

(** The [for] loop of [SetEncoder]. *)
Fixpoint SetEncoder_loop (channel : ChannelId) (encoder : string)
    (codecs : list AudioCodecSpec) : M unit :=
  match codecs with
  | [] => ret tt
  | codec :: rest =>
      if String.eqb (name (format codec)) encoder then
        pt <- GetPayloadType (name (format codec)) ;;
        result <- engine (VoipEngine.SetSendCodec channel pt (format codec)) (SetSendCodec_ret env) ;;
        RTC_CHECK (bool_decide (result = kOk))
      else SetEncoder_loop channel encoder rest
  end.

Definition SetEncoder (IsCurrent : bool) (encoder : string) : M unit :=
  RUN_ON_VOIP_THREAD IsCurrent (TSetEncoder encoder) (
    v <- get ;;
    match channel_ v with
    | None => RTC_LOG "Channel has not been created"
    | Some channel => SetEncoder_loop channel encoder (supported_codecs_ v)
    end).

(** The [for] loop of [SetDecoders]. *)
Fixpoint SetDecoders_loop (decoders : list string) (codecs : list AudioCodecSpec)
    (decoder_specs : gmap Z SdpAudioFormat) : M (gmap Z SdpAudioFormat) :=
  match codecs with
  | [] => ret decoder_specs
  | codec :: rest =>
      if std_find decoders (name (format codec)) then
        pt <- GetPayloadType (name (format codec)) ;;
        SetDecoders_loop decoders rest (map_insert pt (format codec) decoder_specs)
      else SetDecoders_loop decoders rest decoder_specs
  end.

Definition SetDecoders (IsCurrent : bool) (decoders : list string) : M unit :=
  RUN_ON_VOIP_THREAD IsCurrent (TSetDecoders decoders) (
    v <- get ;;
    match channel_ v with
    | None => RTC_LOG "Channel has not been created"
    | Some channel =>
        decoder_specs <- SetDecoders_loop decoders (supported_codecs_ v) ∅ ;;
        result <- engine (VoipEngine.SetReceiveCodecs channel decoder_specs) (SetReceiveCodecs_ret env) ;;
        RTC_CHECK (bool_decide (result = kOk))
    end).

Definition SetLocalAddress (IsCurrent : bool) (ip_address : string) (port_number : Z)
    : M unit :=
  RUN_ON_VOIP_THREAD IsCurrent (TSetLocalAddress ip_address port_number) (
    modify (set_rtp_local_address_ {| hostname := ip_address; port := port_number |}) ;;
    p <- int_add port_number 1 ;;
    modify (set_rtcp_local_address_ {| hostname := ip_address; port := p |})).

Definition SetRemoteAddress (IsCurrent : bool) (ip_address : string) (port_number : Z)
    : M unit :=
  RUN_ON_VOIP_THREAD IsCurrent (TSetRemoteAddress ip_address port_number) (
    modify (set_rtp_remote_address_ {| hostname := ip_address; port := port_number |}) ;;
    p <- int_add port_number 1 ;;
    modify (set_rtcp_remote_address_ {| hostname := ip_address; port := p |})).

(** [member.reset(Create(...))] stores whatever [Create] returned, null
    included; the socket held before is destroyed and leaves the state. *)
Definition StartSession (IsCurrent : bool) : M unit :=
  RUN_ON_VOIP_THREAD IsCurrent TStartSession (
    c <- Base_CreateChannel ;;
    modify (set_channel_ (Some c)) ;;
    v <- get ;;
    s <- AsyncUDPSocket_Create rtp_socket (rtp_local_address_ v) ;;
    modify (set_rtp_socket_ s) ;;
    match s with
    | None =>
        RTC_LOG "Socket creation failed" ;;
        notify (OnStartSessionCompleted false)
    | Some _ =>
        SignalReadPacket_connect rtp_socket OnSignalReadRTPPacket ;;
        v <- get ;;
        s' <- AsyncUDPSocket_Create rtcp_socket (rtcp_local_address_ v) ;;
        modify (set_rtcp_socket_ s') ;;
        match s' with
        | None =>
            RTC_LOG "Socket creation failed" ;;
            notify (OnStartSessionCompleted false)
        | Some _ =>
            SignalReadPacket_connect rtcp_socket OnSignalReadRTCPPacket ;;
            notify (OnStartSessionCompleted true)
        end
    end).

Definition StopSession (IsCurrent : bool) : M unit :=
  RUN_ON_VOIP_THREAD IsCurrent TStopSession (
    v <- get ;;
    match channel_ v with
    | None =>
        RTC_LOG "Channel has not been created" ;;
        notify (OnStopSessionCompleted false)
    | Some channel =>
        r1 <- engine (VoipEngine.StopSend channel) (StopSend_ret env) ;;
        if negb (bool_decide (r1 = kOk)) then notify (OnStopSessionCompleted false)
        else
          r2 <- engine (VoipEngine.StopPlayout channel) (StopPlayout_ret env) ;;
          if negb (bool_decide (r2 = kOk)) then notify (OnStopSessionCompleted false)
          else
            socket_Close rtp_socket ;;
            socket_Close rtcp_socket ;;
            result <- engine (VoipEngine.ReleaseChannel channel) (ReleaseChannel_ret env) ;;
            RTC_CHECK (bool_decide (result = kOk)) ;;
            modify (set_channel_ None) ;;
            notify (OnStopSessionCompleted false)
    end).

Definition StartSend (IsCurrent : bool) : M unit :=
  RUN_ON_VOIP_THREAD IsCurrent TStartSend (
    v <- get ;;
    match channel_ v with
    | None =>
        RTC_LOG "Channel has not been created" ;;
        notify (OnStartSendCompleted false)
    | Some channel =>
        r <- engine (VoipEngine.StartSend channel) (StartSend_ret env) ;;
        let sending_started := bool_decide (r = kOk) in
        notify (OnStartSendCompleted sending_started)
    end).

Definition StopSend (IsCurrent : bool) : M unit :=
  RUN_ON_VOIP_THREAD IsCurrent TStopSend (
    v <- get ;;
    match channel_ v with
    | None =>
        RTC_LOG "Channel has not been created" ;;
        notify (OnStopSendCompleted false)
    | Some channel =>
        r <- engine (VoipEngine.StopSend channel) (StopSend_ret env) ;;
        let sending_stopped := bool_decide (r = kOk) in
        notify (OnStopSendCompleted sending_stopped)
    end).

Definition StartPlayout (IsCurrent : bool) : M unit :=
  RUN_ON_VOIP_THREAD IsCurrent TStartPlayout (
    v <- get ;;
    match channel_ v with
    | None =>
        RTC_LOG "Channel has not been created" ;;
        notify (OnStartPlayoutCompleted false)
    | Some channel =>
        r <- engine (VoipEngine.StartPlayout channel) (StartPlayout_ret env) ;;
        let playout_started := bool_decide (r = kOk) in
        notify (OnStartPlayoutCompleted playout_started)
    end).

Definition StopPlayout (IsCurrent : bool) : M unit :=
  RUN_ON_VOIP_THREAD IsCurrent TStopPlayout (
    v <- get ;;
    match channel_ v with
    | None =>
        RTC_LOG "Channel has not been created" ;;
        notify (OnStopPlayoutCompleted false)
    | Some channel =>
        r <- engine (VoipEngine.StopPlayout channel) (StopPlayout_ret env) ;;
        let playout_stopped := bool_decide (r = kOk) in
        notify (OnStopPlayoutCompleted playout_stopped)
    end).

Definition SendRtpPacket (packet_copy : list byte) : M unit :=
  v <- get ;;
  r <- socket_SendTo rtp_socket packet_copy (rtp_remote_address_ v) ;;
  if r =? 0 then RTC_LOG "Failed to send RTP packet" else ret tt.

Definition SendRtp (packet : list byte) (length : nat) (options : PacketOptions)
    : M bool :=
  packet_copy <- vector_from_range packet length ;;
  PostTask (TSendRtpPacket packet_copy) ;;
  ret true.

Definition SendRtcpPacket (packet_copy : list byte) : M unit :=
  v <- get ;;
  r <- socket_SendTo rtcp_socket packet_copy (rtcp_remote_address_ v) ;;
  if r =? 0 then RTC_LOG "Failed to send RTCP packet" else ret tt.

Definition SendRtcp (packet : list byte) (length : nat) : M bool :=
  packet_copy <- vector_from_range packet length ;;
  PostTask (TSendRtcpPacket packet_copy) ;;
  ret true.

Definition ReadRTPPacket (packet_copy : list byte) : M unit :=
  v <- get ;;
  match channel_ v with
  | None => RTC_LOG "Channel has not been created"
  | Some channel =>
      result <- engine (VoipEngine.ReceivedRTPPacket channel packet_copy)
                       (ReceivedRTPPacket_ret env) ;;
      RTC_CHECK (bool_decide (result = kOk))
  end.

Definition OnSignalReadRTPPacket (rtp_packet : list byte) (size : nat) : M unit :=
  packet_copy <- vector_from_range rtp_packet size ;;
  PostTask (TReadRTPPacket packet_copy).

Definition ReadRTCPPacket (packet_copy : list byte) : M unit :=
  v <- get ;;
  match channel_ v with
  | None => RTC_LOG "Channel has not been created"
  | Some channel =>
      result <- engine (VoipEngine.ReceivedRTCPPacket channel packet_copy)
                       (ReceivedRTCPPacket_ret env) ;;
      RTC_CHECK (bool_decide (result = kOk))
  end.

Definition OnSignalReadRTCPPacket (rtcp_packet : list byte) (size : nat) : M unit :=
  packet_copy <- vector_from_range rtcp_packet size ;;
  PostTask (TReadRTCPPacket packet_copy).

(** What the worker thread does with one dequeued task: the bound
    member function runs with [IsCurrent() = true]. *)
Definition run_task (t : Task) : M unit :=
  match t with
  | TSetEncoder encoder => SetEncoder true encoder
  | TSetDecoders decoders => SetDecoders true decoders
  | TSetLocalAddress ip_address port_number => SetLocalAddress true ip_address port_number
  | TSetRemoteAddress ip_address port_number => SetRemoteAddress true ip_address port_number
  | TStartSession => StartSession true
  | TStopSession => StopSession true
  | TStartSend => StartSend true
  | TStopSend => StopSend true
  | TStartPlayout => StartPlayout true
  | TStopPlayout => StopPlayout true
  | TSendRtpPacket packet_copy => SendRtpPacket packet_copy
  | TSendRtcpPacket packet_copy => SendRtcpPacket packet_copy
  | TReadRTPPacket packet_copy => ReadRTPPacket packet_copy
  | TReadRTCPPacket packet_copy => ReadRTCPPacket packet_copy
  end.

(** The worker thread takes the oldest task off the queue and runs it
    to completion. *)
Definition run_next : M unit :=
  v <- get ;;
  match voip_thread_ v with
  | [] => ret tt
  | t :: q => modify (set_voip_thread_ q) ;; run_task t
  end.

End Members.

(** [VoipClient::Create()] followed by [Init()]: nothing is posted, no
    subscriber is attached, no channel or socket exists, and the codec
    list is the one the encoder factory reports. *)
Definition Create (codecs : list AudioCodecSpec) : World :=
  {| this := {| voip_thread_ := []; callback_ := false;
                supported_codecs_ := codecs; channel_ := None;
                rtp_socket_ := None; rtcp_socket_ := None;
                rtp_local_address_ := SocketAddress_default;
                rtcp_local_address_ := SocketAddress_default;
                rtp_remote_address_ := SocketAddress_default;
                rtcp_remote_address_ := SocketAddress_default |};
     trace := [] |}.

(** ** Reading a trace *)

(** The notifications the completion sink has received. *)
Definition callbacks (evs : list Event) : list CallbackEvent :=
  omap (fun e => match e with EvCallback c => Some c | _ => None end) evs.

(** The calls made on the engine. *)
Definition engine_calls (evs : list Event) : list VoipEngine.Call :=
  omap (fun e => match e with EvEngine c _ => Some c | _ => None end) evs.

(** The log lines written. *)
Definition logged (evs : list Event) : list string :=
  omap (fun e => match e with EvLog msg => Some msg | _ => None end) evs.

(** The channels the engine holds after a trace: [CreateChannel] hands one
    out, a [ReleaseChannel] that returns [kOk] takes it back. *)
Definition allocate (live : gset ChannelId) (e : Event) : gset ChannelId :=
  match e with
  | EvCreateChannel c => {[ c ]} ∪ live
  | EvEngine (VoipEngine.ReleaseChannel c) kOk => live ∖ {[ c ]}
  | _ => live
  end.

Definition allocated (evs : list Event) : gset ChannelId :=
  fold_left allocate evs ∅.

(** ** Session predicates *)

(** The session is fully started: channel and both sockets exist. *)
Definition fully_started (v : VoipClient) : bool :=
  match channel_ v, rtp_socket_ v, rtcp_socket_ v with
  | Some _, Some _, Some _ => true
  | _, _, _ => false
  end.

(** The invariant as section 3 of the specification words it. *)
Definition channel_iff_sockets (v : VoipClient) : Prop :=
  is_Some (channel_ v) ↔ (is_Some (rtp_socket_ v) ∧ is_Some (rtcp_socket_ v)).

(** The direction the code maintains: an open socket is never left
    without a channel. *)
Definition open_socket_has_channel (v : VoipClient) : Prop :=
  ∀ which s, socket_member which v = Some s → closed s = false →
             is_Some (channel_ v).

(** ** The worker actor as a transition system *)

(** The member functions bound into tasks.  Ten of them are public and
    start with [RUN_ON_VOIP_THREAD]; the four private packet functions
    have no such prologue. *)
Definition uses_RUN_ON_VOIP_THREAD (method : Task) : bool :=
  match method with
  | TSendRtpPacket _ | TSendRtcpPacket _ | TReadRTPPacket _ | TReadRTCPPacket _ => false
  | _ => true
  end.

Definition call (env : Environment) (IsCurrent : bool) (method : Task) : M unit :=
  match method with
  | TSetEncoder encoder => SetEncoder env IsCurrent encoder
  | TSetDecoders decoders => SetDecoders env IsCurrent decoders
  | TSetLocalAddress ip_address port_number => SetLocalAddress IsCurrent ip_address port_number
  | TSetRemoteAddress ip_address port_number => SetRemoteAddress IsCurrent ip_address port_number
  | TStartSession => StartSession env IsCurrent
  | TStopSession => StopSession env IsCurrent
  | TStartSend => StartSend env IsCurrent
  | TStopSend => StopSend env IsCurrent
  | TStartPlayout => StartPlayout env IsCurrent
  | TStopPlayout => StopPlayout env IsCurrent
  | TSendRtpPacket packet_copy => SendRtpPacket env packet_copy
  | TSendRtcpPacket packet_copy => SendRtcpPacket env packet_copy
  | TReadRTPPacket packet_copy => ReadRTPPacket env packet_copy
  | TReadRTCPPacket packet_copy => ReadRTCPPacket env packet_copy
  end.

(** One atomic step of the system: somebody calls a member function, the
    engine hands over an outbound packet, a socket delivers a datagram, or
    the worker thread runs the next queued task.  A crashed process takes
    no further step. *)
Inductive step : World → World → Prop :=
| step_call env IsCurrent method w w' :
    call env IsCurrent method w = Returned tt w' → step w w'
| step_SendRtp packet length options b w w' :
    SendRtp packet length options w = Returned b w' → step w w'
| step_SendRtcp packet length b w w' :
    SendRtcp packet length w = Returned b w' → step w w'
| step_OnSignalReadRTPPacket rtp_packet size w w' :
    OnSignalReadRTPPacket rtp_packet size w = Returned tt w' → step w w'
| step_OnSignalReadRTCPPacket rtcp_packet size w w' :
    OnSignalReadRTCPPacket rtcp_packet size w = Returned tt w' → step w w'
| step_run env w w' :
    run_next env w = Returned tt w' → step w w'.

Inductive reachable (codecs : list AudioCodecSpec) : World → Prop :=
| reachable_Create : reachable codecs (Create codecs)
| reachable_step w w' : reachable codecs w → step w w' → reachable codecs w'.

(** ** The codec table as the specification lists it *)

Definition payload_type_table : list (string * Z) :=
  [("PCMU", 0); ("PCMA", 8); ("G722", 9); ("opus", 96); ("ISAC", 97); ("ILBC", 98)]%string.

Definition table_lookup (codec_name : string) : option Z :=
  snd <$> find (fun p => String.eqb (fst p) codec_name) payload_type_table.

(** The first catalog entry carrying a given name. *)
Definition first_named (codec_name : string) (codecs : list AudioCodecSpec)
    : option AudioCodecSpec :=
  find (fun codec => String.eqb (name (format codec)) codec_name) codecs.

(** The first catalog entry that is requested and has payload type [pt]. *)
Definition first_requested (decoders : list string) (pt : Z)
    (codecs : list AudioCodecSpec) : option AudioCodecSpec :=
  find (fun codec => std_find decoders (name (format codec)) &&
                     bool_decide (table_lookup (name (format codec)) = Some pt)) codecs.

(** ** Concrete worlds and environments *)

Definition loopback (p : Z) : SocketAddress := {| hostname := "127.0.0.1"; port := p |}.

Definition open_socket (a : SocketAddress) (sl : Slot) : AsyncUDPSocket :=
  {| bound_address := a; closed := false; SignalReadPacket := [sl] |}.

(** Every collaborator succeeds; the engine hands out channel 1. *)
Definition env_ok : Environment :=
  {| RTC_DCHECK_IS_ON := true; CreateChannel_ret := 1;
     ReleaseChannel_ret := kOk; StartSend_ret := kOk; StopSend_ret := kOk;
     StartPlayout_ret := kOk; StopPlayout_ret := kOk; SetSendCodec_ret := kOk;
     SetReceiveCodecs_ret := kOk; ReceivedRTPPacket_ret := kOk;
     ReceivedRTCPPacket_ret := kOk; rtp_Create_ok := true; rtcp_Create_ok := true;
     rtp_SendTo_ret := 3; rtcp_SendTo_ret := 3 |}.

(** As [env_ok], but the rtp socket cannot be bound. *)
Definition env_rtp_busy : Environment :=
  {| RTC_DCHECK_IS_ON := true; CreateChannel_ret := 1;
     ReleaseChannel_ret := kOk; StartSend_ret := kOk; StopSend_ret := kOk;
     StartPlayout_ret := kOk; StopPlayout_ret := kOk; SetSendCodec_ret := kOk;
     SetReceiveCodecs_ret := kOk; ReceivedRTPPacket_ret := kOk;
     ReceivedRTCPPacket_ret := kOk; rtp_Create_ok := false; rtcp_Create_ok := true;
     rtp_SendTo_ret := 3; rtcp_SendTo_ret := 3 |}.

Definition opus_spec : AudioCodecSpec :=
  {| format := {| name := "opus"; clockrate_hz := 48000; num_channels := 2;
                  parameters := [("minptime", "10"); ("useinbandfec", "1")]%string |} |}.
Definition pcmu_spec : AudioCodecSpec :=
  {| format := {| name := "PCMU"; clockrate_hz := 8000; num_channels := 1; parameters := [] |} |}.
Definition isac16_spec : AudioCodecSpec :=
  {| format := {| name := "ISAC"; clockrate_hz := 16000; num_channels := 1; parameters := [] |} |}.
Definition isac32_spec : AudioCodecSpec :=
  {| format := {| name := "ISAC"; clockrate_hz := 32000; num_channels := 1; parameters := [] |} |}.

(** A session in progress on channel 0 with a live subscriber. *)
Definition active_client (codecs : list AudioCodecSpec) : VoipClient :=
  {| voip_thread_ := []; callback_ := true; supported_codecs_ := codecs;
     channel_ := Some 0;
     rtp_socket_ := Some (open_socket (loopback 10000) rtc.OnSignalReadRTPPacket);
     rtcp_socket_ := Some (open_socket (loopback 10001) rtc.OnSignalReadRTCPPacket);
     rtp_local_address_ := loopback 10000; rtcp_local_address_ := loopback 10001;
     rtp_remote_address_ := loopback 20000; rtcp_remote_address_ := loopback 20001 |}.

Definition active_world (codecs : list AudioCodecSpec) : World :=
  {| this := active_client codecs; trace := [] |}.

(** ** The worker loop and sequences of calls *)

(** The worker thread running one queued task after the other; the
    [k]-th run gets the collaborators' answers [envs !! k]. *)
Fixpoint run_tasks (envs : list Environment) : M unit :=
  match envs with
  | [] => ret tt
  | env :: envs' => run_next env ;; run_tasks envs'
  end.


(** The world with another task queue. *)
Definition with_queue (q : list Task) (w : World) : World :=
  {| this := set_voip_thread_ q (this w); trace := trace w |}.


(** ** The conductor of [main.cc] *)

Module Conductor.

Definition OnEncoderUpdate (env : Environment) (IsCurrent : bool) (encoder : string)
    : M unit :=
  SetEncoder env IsCurrent encoder.

Definition OnDecodersUpdate (env : Environment) (IsCurrent : bool)
    (decoders : list string) : M unit :=
  SetDecoders env IsCurrent decoders.

Definition OnSessionEvent (env : Environment) (IsCurrent : bool) (on : bool)
    (local_ip : string) (local_port : Z) (remote_ip : string) (remote_port : Z)
    (encoder : string) (decoders : list string) : M unit :=
  RTC_LOG "OnSessionEvent" ;;
  if on then
    SetLocalAddress IsCurrent local_ip local_port ;;
    SetRemoteAddress IsCurrent remote_ip remote_port ;;
    StartSession env IsCurrent ;;
    SetEncoder env IsCurrent encoder ;;
    SetDecoders env IsCurrent decoders
  else StopSession env IsCurrent.

Definition OnSendAudio (env : Environment) (IsCurrent : bool) (send : bool) : M unit :=
  if send then StartSend env IsCurrent else StopSend env IsCurrent.

Definition OnPlayoutAudio (env : Environment) (IsCurrent : bool) (playout : bool)
    : M unit :=
  if playout then StartPlayout env IsCurrent else StopPlayout env IsCurrent.

End Conductor.

(** ** The local address probe *)

Definition AF_INET : Z := 2.
Definition AF_INET6 : Z := 10.
Definition ENETUNREACH : Z := 101.
Definition EHOSTUNREACH : Z := 113.

(** [rtc::IPAddress]: [None] is the nil address, [Some s] an address
    whose [ToString()] is [s]. *)
Definition IPAddress := option string.

(** What the socket layer answers to one probe: whether [CreateSocket]
    returned a socket, the results of [Connect] and [GetError], and the
    address [GetLocalAddress().ipaddr()] reports. *)
Record Probe := {
  CreateSocket_ok : bool;
  Connect_ret : Z;
  GetError_ret : Z;
  GetLocalAddress_ipaddr : IPAddress
}.

Section LocalAddress.

Variable env : Environment.

(** One probe per address family. *)
Variable probe : Z → Probe.

(** [QueryDefaultLocalAddress] of the anonymous namespace.  The thread it
    creates comes with a socket server, so the first [RTC_DCHECK] holds. *)
Definition QueryDefaultLocalAddress (family : Z) : M IPAddress :=
  RTC_DCHECK env ((family =? AF_INET) || (family =? AF_INET6)) ;;
  if negb (CreateSocket_ok (probe family)) then
    RTC_LOG "Socket creation failed" ;;
    ret None
  else if Connect_ret (probe family) <? 0 then
    (if negb (GetError_ret (probe family) =? ENETUNREACH) &&
        negb (GetError_ret (probe family) =? EHOSTUNREACH)
     then RTC_LOG ("Connect failed with " +:+ pretty (GetError_ret (probe family)))
     else ret tt) ;;
    ret None
  else ret (GetLocalAddress_ipaddr (probe family)).

(** [VoipClient::GetLocalIPAddress] *)
Definition GetLocalIPAddress : M string :=
  ipv4_address <- QueryDefaultLocalAddress AF_INET ;;
  match ipv4_address with
  | Some s => ret s
  | None =>
      ipv6_address <- QueryDefaultLocalAddress AF_INET6 ;;
      match ipv6_address with
      | Some s => ret s
      | None => ret ""%string
      end
  end.

End LocalAddress.

(** What one probe amounts to: an address only when the socket exists and
    [Connect] did not fail. *)
Definition probed_address (p : Probe) : IPAddress :=
  if CreateSocket_ok p && negb (Connect_ret p <? 0)
  then GetLocalAddress_ipaddr p else None.

(** ** The decoder label of [gtk_window.cc] *)

(** [a - b] on [size_t]. *)
Definition size_t_sub (a b : Z) : Z :=
  if b <=? a then a - b else a - b + 2 ^ 64.

(** The [for] loop of [UpdateDecodersInfo]; [rest] is the vector from
    index [i] on, so that [enabled_decoders_[i]] is its head. *)
Fixpoint UpdateDecodersInfo_loop (rest : list string) (i bound : Z) (decoders_text : string)
    : Fault + string :=
  if i <? bound then
    match rest with
    | [] => inl OutOfBounds
    | d :: rest' =>
        UpdateDecodersInfo_loop rest' (i + 1) bound (decoders_text +:+ d +:+ ", ")
    end
  else inr decoders_text.

(** [GTK_Window::UpdateDecodersInfo]: the new [enabled_decoders_] and the
    text handed to [gtk_label_set_text]. *)
Definition UpdateDecodersInfo (decoders : list string) : Fault + (list string * string) :=
  let enabled_decoders_ := decoders in
  match UpdateDecodersInfo_loop enabled_decoders_ 0
          (size_t_sub (Z.of_nat (length enabled_decoders_)) 1) "" with
  | inl e => inl e
  | inr decoders_text =>
      match last enabled_decoders_ with
      | None => inl OutOfBounds
      | Some back => inr (enabled_decoders_, decoders_text +:+ back)
      end
  end.

(** The engine refuses to stop sending. *)
Definition env_stop_refused : Environment :=
  {| RTC_DCHECK_IS_ON := true; CreateChannel_ret := 1;
     ReleaseChannel_ret := kOk; StartSend_ret := kOk; StopSend_ret := kFailedPrecondition;
     StartPlayout_ret := kOk; StopPlayout_ret := kOk; SetSendCodec_ret := kOk;
     SetReceiveCodecs_ret := kOk; ReceivedRTPPacket_ret := kOk;
     ReceivedRTCPPacket_ret := kOk; rtp_Create_ok := true; rtcp_Create_ok := true;
     rtp_SendTo_ret := 3; rtcp_SendTo_ret := 3 |}.

(** The state of a client nobody has subscribed to: no subscriber, the
    catalog it was created with, nothing delivered to a completion sink. *)
Definition silent (codecs : list AudioCodecSpec) (w : World) : Prop :=
  callback_ (this w) = false ∧
  supported_codecs_ (this w) = codecs ∧
  callbacks (trace w) = [].

(** The engine refuses to release the channel. *)
Definition env_release_refused : Environment :=
  {| RTC_DCHECK_IS_ON := true; CreateChannel_ret := 1;
     ReleaseChannel_ret := kInternal; StartSend_ret := kOk; StopSend_ret := kOk;
     StartPlayout_ret := kOk; StopPlayout_ret := kOk; SetSendCodec_ret := kOk;
     SetReceiveCodecs_ret := kOk; ReceivedRTPPacket_ret := kOk;
     ReceivedRTCPPacket_ret := kOk; rtp_Create_ok := true; rtcp_Create_ok := true;
     rtp_SendTo_ret := 3; rtcp_SendTo_ret := 3 |}.

(** The client as the conductor starts it from the GUI thread: local
    and remote addresses set, one StartSession that succeeded on channel
    1, all three posted and run; nobody is subscribed. *)
Definition started_world : World :=
  {| this := {| voip_thread_ := []; callback_ := false;
                supported_codecs_ := [pcmu_spec; opus_spec];
                channel_ := Some 1;
                rtp_socket_ :=
                  Some (open_socket (loopback 10000) rtc.OnSignalReadRTPPacket);
                rtcp_socket_ :=
                  Some (open_socket (loopback 10001) rtc.OnSignalReadRTCPPacket);
                rtp_local_address_ := loopback 10000;
                rtcp_local_address_ := loopback 10001;
                rtp_remote_address_ := loopback 20000;
                rtcp_remote_address_ := loopback 20001 |};
     trace := [EvCreateChannel 1;
               EvSocketCreate rtp_socket (loopback 10000) true;
               EvConnect rtp_socket rtc.OnSignalReadRTPPacket;
               EvSocketCreate rtcp_socket (loopback 10001) true;
               EvConnect rtcp_socket rtc.OnSignalReadRTCPPacket] |}.

(** A second start while the first session holds its ports: the engine
    hands out channel 2 and the rtp address is in use. *)
Definition env_second_start : Environment :=
  {| RTC_DCHECK_IS_ON := true; CreateChannel_ret := 2;
     ReleaseChannel_ret := kOk; StartSend_ret := kOk; StopSend_ret := kOk;
     StartPlayout_ret := kOk; StopPlayout_ret := kOk; SetSendCodec_ret := kOk;
     SetReceiveCodecs_ret := kOk; ReceivedRTPPacket_ret := kOk;
     ReceivedRTCPPacket_ret := kOk; rtp_Create_ok := false; rtcp_Create_ok := true;
     rtp_SendTo_ret := 3; rtcp_SendTo_ret := 3 |}.

(** The sockets fail to send: [SendTo] returns -1, its error value. *)
Definition env_send_fails : Environment :=
  {| RTC_DCHECK_IS_ON := true; CreateChannel_ret := 1;
     ReleaseChannel_ret := kOk; StartSend_ret := kOk; StopSend_ret := kOk;
     StartPlayout_ret := kOk; StopPlayout_ret := kOk; SetSendCodec_ret := kOk;
     SetReceiveCodecs_ret := kOk; ReceivedRTPPacket_ret := kOk;
     ReceivedRTCPPacket_ret := kOk; rtp_Create_ok := true; rtcp_Create_ok := true;
     rtp_SendTo_ret := -1; rtcp_SendTo_ret := -1 |}.

(** The sockets send an empty datagram: [SendTo] returns 0, the number of
    bytes sent. *)
Definition env_send_empty : Environment :=
  {| RTC_DCHECK_IS_ON := true; CreateChannel_ret := 1;
     ReleaseChannel_ret := kOk; StartSend_ret := kOk; StopSend_ret := kOk;
     StartPlayout_ret := kOk; StopPlayout_ret := kOk; SetSendCodec_ret := kOk;
     SetReceiveCodecs_ret := kOk; ReceivedRTPPacket_ret := kOk;
     ReceivedRTCPPacket_ret := kOk; rtp_Create_ok := true; rtcp_Create_ok := true;
     rtp_SendTo_ret := 0; rtcp_SendTo_ret := 0 |}.

(** * Properties *)

(** ** Stepping through the monad *)

Lemma bind_Returned {A B} (m : M A) (k : A → M B) w a w' :
  m w = Returned a w' → (x <- m ;; k x) w = k a w'.
Proof. unfold bind. intros ->. reflexivity. Qed.

Lemma bind_Crashed {A B} (m : M A) (k : A → M B) w f w' :
  m w = Crashed f w' → (x <- m ;; k x) w = Crashed f w'.
Proof. unfold bind. intros ->. reflexivity. Qed.

Lemma notify_spec e w :
  notify e w =
  Returned tt {| this := this w;
                 trace := trace w ++ (if callback_ (this w) then [EvCallback e] else []) |}.
Proof.
  unfold notify, bind, get, emit, ret. destruct w as [v t]; simpl.
  destruct (callback_ v); simpl; [reflexivity | by rewrite app_nil_r].
Qed.

Lemma callbacks_app evs evs' : callbacks (evs ++ evs') = callbacks evs ++ callbacks evs'.
Proof. apply omap_app. Qed.

Lemma allocated_snoc evs e : allocated (evs ++ [e]) = allocate (allocated evs) e.
Proof. unfold allocated. by rewrite fold_left_app. Qed.

(** ** Dispatch *)

(** Called from another thread, a public member function only posts
    itself; the worker later runs the same function with
    [IsCurrent() = true]. *)
Lemma call_off_thread_posts env method w :
  uses_RUN_ON_VOIP_THREAD method = true →
  call env false method w =
  Returned tt {| this := set_voip_thread_ (voip_thread_ (this w) ++ [method]) (this w);
                 trace := trace w |}.
Proof. destruct method; intros H; try discriminate H; reflexivity. Qed.

Lemma run_task_call env method : run_task env method = call env true method.
Proof. destruct method; reflexivity. Qed.

Lemma posted_call_runs_on_worker env env' method w :
  uses_RUN_ON_VOIP_THREAD method = true →
  voip_thread_ (this w) = [] →
  (call env false method ;; run_next env') w = call env' true method w.
Proof.
  intros Hpub Hq. unfold bind at 1. rewrite call_off_thread_posts by exact Hpub.
  unfold run_next, bind, get, modify; simpl. rewrite Hq; simpl.
  rewrite run_task_call. f_equal.
  destruct w as [v t]; destruct v; simpl in *; subst; reflexivity.
Qed.

(** ** Addresses *)

(** C7.  For every ip and every [int] port whose successor is an [int],
    SetLocalAddress stores (ip, port) as the local rtp endpoint and
    (ip, port + 1) as the local rtcp endpoint, SetRemoteAddress does the
    same for the remote pair; each returns for any such input without
    consulting a collaborator (the trace is unchanged) and leaves every
    other data member as it was. *)
Theorem SetAddress_stores_endpoint_pair (w : World) (ip_address : string) (port_number : Z) :
  INT_MIN ≤ port_number < INT_MAX →
  (∃ v', SetLocalAddress true ip_address port_number w
           = Returned tt {| this := v'; trace := trace w |} ∧
         rtp_local_address_ v' = {| hostname := ip_address; port := port_number |} ∧
         rtcp_local_address_ v' = {| hostname := ip_address; port := port_number + 1 |} ∧
         voip_thread_ v' = voip_thread_ (this w) ∧
         callback_ v' = callback_ (this w) ∧
         supported_codecs_ v' = supported_codecs_ (this w) ∧
         channel_ v' = channel_ (this w) ∧
         rtp_socket_ v' = rtp_socket_ (this w) ∧
         rtcp_socket_ v' = rtcp_socket_ (this w) ∧
         rtp_remote_address_ v' = rtp_remote_address_ (this w) ∧
         rtcp_remote_address_ v' = rtcp_remote_address_ (this w)) ∧
  (∃ v', SetRemoteAddress true ip_address port_number w
           = Returned tt {| this := v'; trace := trace w |} ∧
         rtp_remote_address_ v' = {| hostname := ip_address; port := port_number |} ∧
         rtcp_remote_address_ v' = {| hostname := ip_address; port := port_number + 1 |} ∧
         voip_thread_ v' = voip_thread_ (this w) ∧
         callback_ v' = callback_ (this w) ∧
         supported_codecs_ v' = supported_codecs_ (this w) ∧
         channel_ v' = channel_ (this w) ∧
         rtp_socket_ v' = rtp_socket_ (this w) ∧
         rtcp_socket_ v' = rtcp_socket_ (this w) ∧
         rtp_local_address_ v' = rtp_local_address_ (this w) ∧
         rtcp_local_address_ v' = rtcp_local_address_ (this w)).
Proof.
  intros Hport.
  assert (Hrange : in_int_range (port_number + 1) = true).
  { unfold in_int_range, INT_MIN, INT_MAX in *.
    apply andb_true_intro; split; apply Z.leb_le; lia. }
  split; eexists;
    unfold SetLocalAddress, SetRemoteAddress, RUN_ON_VOIP_THREAD, int_add,
      bind, modify, ret; simpl; rewrite Hrange; simpl;
    (split; [reflexivity | repeat split]).
Qed.

Lemma SetAddress_stores_endpoint_pair_witness :
  INT_MIN ≤ 10000 < INT_MAX ∧
  ∃ v', SetLocalAddress true "127.0.0.1" 10000 (Create [])
          = Returned tt {| this := v'; trace := [] |} ∧
        rtp_local_address_ v' = loopback 10000 ∧
        rtcp_local_address_ v' = loopback 10001.
Proof.
  assert (H : INT_MIN ≤ 10000 < INT_MAX) by (unfold INT_MIN, INT_MAX; lia).
  split; [exact H |].
  destruct (SetAddress_stores_endpoint_pair (Create []) "127.0.0.1" 10000 H)
    as [(v' & Hrun & Hrtp & Hrtcp & _) _].
  exists v'. repeat split; assumption.
Defined.

(** ** Session start and stop *)

Ltac unfold_members :=
  unfold StartSession, StopSession, StartSend, StopSend, StartPlayout, StopPlayout,
    SetEncoder, SetDecoders, SetLocalAddress, SetRemoteAddress,
    SendRtpPacket, SendRtcpPacket, ReadRTPPacket, ReadRTCPPacket,
    SendRtp, SendRtcp, OnSignalReadRTPPacket, OnSignalReadRTCPPacket,
    RUN_ON_VOIP_THREAD, Base_CreateChannel, AsyncUDPSocket_Create,
    SignalReadPacket_connect, socket_Close, socket_SendTo, deref, engine,
    vector_from_range, int_add, notify, RTC_LOG, RTC_CHECK, PostTask,
    bind, ret, get, modify, emit, fault in *.

Ltac flatten_trace := rewrite <- ?app_assoc; simpl.

(** What StopSession does once the engine has stopped sending and playing
    out and both sockets exist. *)
Lemma StopSession_success_path env w c s1 s2 :
  channel_ (this w) = Some c →
  rtp_socket_ (this w) = Some s1 →
  rtcp_socket_ (this w) = Some s2 →
  StopSend_ret env = kOk → StopPlayout_ret env = kOk → ReleaseChannel_ret env = kOk →
  StopSession env true w =
  Returned tt
    {| this := set_channel_ None
                 (set_rtcp_socket_ (Some (Close s2))
                    (set_rtp_socket_ (Some (Close s1)) (this w)));
       trace := trace w ++
                [EvEngine (VoipEngine.StopSend c) kOk;
                 EvEngine (VoipEngine.StopPlayout c) kOk;
                 EvClose rtp_socket; EvClose rtcp_socket;
                 EvEngine (VoipEngine.ReleaseChannel c) kOk] ++
                (if callback_ (this w)
                 then [EvCallback (OnStopSessionCompleted false)] else []) |}.
Proof.
  destruct w as [v t]; simpl. intros Hc Hs1 Hs2 H1 H2 H3.
  unfold_members; simpl. rewrite Hc, H1; simpl. rewrite H2; simpl.
  rewrite Hs1; simpl. rewrite Hs2; simpl. rewrite H3; simpl.
  destruct (callback_ v); simpl; flatten_trace; reflexivity.
Qed.

(** [started_world] is what a fresh client becomes when the three calls
    are posted from another thread and the worker runs them. *)
Lemma started_world_reachable : reachable [pcmu_spec; opus_spec] started_world.
Proof.
  pose proof (reachable_Create [pcmu_spec; opus_spec]) as H.
  eapply reachable_step in H;
    [| apply (step_call env_ok false (TSetLocalAddress "127.0.0.1" 10000));
       lazy; reflexivity].
  eapply reachable_step in H;
    [| apply (step_call env_ok false (TSetRemoteAddress "127.0.0.1" 20000));
       lazy; reflexivity].
  eapply reachable_step in H;
    [| apply (step_call env_ok false TStartSession); lazy; reflexivity].
  eapply reachable_step in H; [| apply (step_run env_ok); lazy; reflexivity].
  eapply reachable_step in H; [| apply (step_run env_ok); lazy; reflexivity].
  eapply reachable_step in H; [| apply (step_run env_ok); lazy; reflexivity].
  exact H.
Qed.

(** C1.  The client reaches a full session on channel 1 from a fresh
    start.  With an engine that accepts StopSend, StopPlayout and
    ReleaseChannel, StopSession then closes both sockets, releases the
    channel and clears the channel handle, and the completion sink
    receives nothing, since no subscriber can be attached: the success is
    not reported as [true].  On the same session with a subscriber in
    place, the one notification the success path makes is
    OnStopSessionCompleted with [false]. *)
Theorem StopSession_success_reports_false :
  reachable [pcmu_spec; opus_spec] started_world ∧
  fully_started (this started_world) = true ∧
  (∃ w', StopSession env_ok true started_world = Returned tt w' ∧
         channel_ (this w') = None ∧
         (closed <$> rtp_socket_ (this w')) = Some true ∧
         (closed <$> rtcp_socket_ (this w')) = Some true ∧
         engine_calls (trace w') =
           [VoipEngine.StopSend 1; VoipEngine.StopPlayout 1; VoipEngine.ReleaseChannel 1] ∧
         allocated (trace w') = ∅ ∧
         callbacks (trace w') = []) ∧
  (∃ w', StopSession env_ok true (active_world []) = Returned tt w' ∧
         channel_ (this w') = None ∧
         callbacks (trace w') = [OnStopSessionCompleted false]).
Proof.
  split; [exact started_world_reachable |]. split; [reflexivity |]. split.
  - eexists. split; [lazy; reflexivity |]. simpl. repeat split; reflexivity.
  - eexists. split; [lazy; reflexivity |]. simpl. repeat split; reflexivity.
Qed.

(** The three ways through StartSession.  None of them looks at the
    channel handle or the sockets the client already holds. *)
Lemma StartSession_rtp_failure env w :
  rtp_Create_ok env = false →
  StartSession env true w =
  Returned tt
    {| this := set_rtp_socket_ None (set_channel_ (Some (CreateChannel_ret env)) (this w));
       trace := trace w ++
                [EvCreateChannel (CreateChannel_ret env);
                 EvSocketCreate rtp_socket (rtp_local_address_ (this w)) false;
                 EvLog "Socket creation failed"] ++
                (if callback_ (this w)
                 then [EvCallback (OnStartSessionCompleted false)] else []) |}.
Proof.
  destruct w as [v t]; simpl. intros H.
  unfold_members; simpl. rewrite H; simpl.
  destruct (callback_ v); simpl; flatten_trace; reflexivity.
Qed.

Lemma StartSession_rtcp_failure env w :
  rtp_Create_ok env = true → rtcp_Create_ok env = false →
  StartSession env true w =
  Returned tt
    {| this := set_rtcp_socket_ None
                 (set_rtp_socket_
                    (Some (open_socket (rtp_local_address_ (this w)) rtc.OnSignalReadRTPPacket))
                    (set_channel_ (Some (CreateChannel_ret env)) (this w)));
       trace := trace w ++
                [EvCreateChannel (CreateChannel_ret env);
                 EvSocketCreate rtp_socket (rtp_local_address_ (this w)) true;
                 EvConnect rtp_socket rtc.OnSignalReadRTPPacket;
                 EvSocketCreate rtcp_socket (rtcp_local_address_ (this w)) false;
                 EvLog "Socket creation failed"] ++
                (if callback_ (this w)
                 then [EvCallback (OnStartSessionCompleted false)] else []) |}.
Proof.
  destruct w as [v t]; simpl. intros H H'.
  unfold_members; simpl. rewrite H; simpl. rewrite H'; simpl.
  destruct (callback_ v); simpl; flatten_trace; reflexivity.
Qed.

Lemma StartSession_success env w :
  rtp_Create_ok env = true → rtcp_Create_ok env = true →
  StartSession env true w =
  Returned tt
    {| this := set_rtcp_socket_
                 (Some (open_socket (rtcp_local_address_ (this w)) rtc.OnSignalReadRTCPPacket))
                 (set_rtp_socket_
                    (Some (open_socket (rtp_local_address_ (this w)) rtc.OnSignalReadRTPPacket))
                    (set_channel_ (Some (CreateChannel_ret env)) (this w)));
       trace := trace w ++
                [EvCreateChannel (CreateChannel_ret env);
                 EvSocketCreate rtp_socket (rtp_local_address_ (this w)) true;
                 EvConnect rtp_socket rtc.OnSignalReadRTPPacket;
                 EvSocketCreate rtcp_socket (rtcp_local_address_ (this w)) true;
                 EvConnect rtcp_socket rtc.OnSignalReadRTCPPacket] ++
                (if callback_ (this w)
                 then [EvCallback (OnStartSessionCompleted true)] else []) |}.
Proof.
  destruct w as [v t]; simpl. intros H H'.
  unfold_members; simpl. rewrite H; simpl. rewrite H'; simpl.
  destruct (callback_ v); simpl; flatten_trace; reflexivity.
Qed.

Lemma allocated_app evs evs' :
  allocated (evs ++ evs') = fold_left allocate evs' (allocated evs).
Proof. unfold allocated. apply fold_left_app. Qed.

(** C4.  Whenever the creation of the rtp socket or of the rtcp socket
    fails, StartSession returns after telling a live completion sink
    OnStartSessionCompleted(false) and nothing else; the session is not
    fully started; no engine call follows CreateChannel, so the channel
    of step 1 stays in the channel handle and stays allocated in the
    engine. *)
Theorem StartSession_socket_failure_keeps_channel env w :
  rtp_Create_ok env = false ∨ rtcp_Create_ok env = false →
  ∃ w' evs,
    StartSession env true w = Returned tt w' ∧
    trace w' = trace w ++ EvCreateChannel (CreateChannel_ret env) :: evs ∧
    callbacks evs =
      (if callback_ (this w) then [OnStartSessionCompleted false] else []) ∧
    logged evs = ["Socket creation failed"%string] ∧
    fully_started (this w') = false ∧
    channel_ (this w') = Some (CreateChannel_ret env) ∧
    engine_calls evs = [] ∧
    CreateChannel_ret env ∈ allocated (trace w').
Proof.
  intros Hfail.
  destruct (rtp_Create_ok env) eqn:Hrtp.
  - assert (Hrtcp : rtcp_Create_ok env = false) by (destruct Hfail; congruence).
    eexists _, _. split; [apply StartSession_rtcp_failure; assumption |].
    simpl. split; [reflexivity |].
    repeat split.
    + destruct (callback_ (this w)); reflexivity.
    + destruct (callback_ (this w)); reflexivity.
    + destruct (callback_ (this w)); reflexivity.
    + rewrite allocated_app.
      destruct (callback_ (this w)); simpl;
        apply elem_of_union_l, elem_of_singleton; reflexivity.
  - eexists _, _. split; [apply StartSession_rtp_failure; assumption |].
    simpl. split; [reflexivity |].
    repeat split.
    + destruct (callback_ (this w)); reflexivity.
    + destruct (callback_ (this w)); reflexivity.
    + destruct (callback_ (this w)); reflexivity.
    + rewrite allocated_app.
      destruct (callback_ (this w)); simpl;
        apply elem_of_union_l, elem_of_singleton; reflexivity.
Qed.

Lemma StartSession_socket_failure_keeps_channel_witness :
  (rtp_Create_ok env_rtp_busy = false ∨ rtcp_Create_ok env_rtp_busy = false) ∧
  ∃ w', StartSession env_rtp_busy true (Create []) = Returned tt w' ∧
        channel_ (this w') = Some 1 ∧ fully_started (this w') = false.
Proof.
  assert (H : rtp_Create_ok env_rtp_busy = false ∨ rtcp_Create_ok env_rtp_busy = false)
    by (left; reflexivity).
  split; [exact H |].
  destruct (StartSession_socket_failure_keeps_channel env_rtp_busy (Create []) H)
    as (w' & evs & Hrun & _ & _ & _ & Hnot & Hc & _).
  exists w'. repeat split; assumption.
Defined.

(** C10.  After a StartSession that failed at the rtp socket the channel
    handle is set and the rtp socket is null; a StopSession for which the
    engine accepts StopSend and StopPlayout then passes its only guard
    (the channel handle) and dereferences the null rtp socket at
    [rtp_socket_->Close()]. *)
Theorem StopSession_after_failed_StartSession_null_dereference env env' w :
  rtp_Create_ok env = false →
  StopSend_ret env' = kOk → StopPlayout_ret env' = kOk →
  ∃ w1, StartSession env true w = Returned tt w1 ∧
        channel_ (this w1) = Some (CreateChannel_ret env) ∧
        rtp_socket_ (this w1) = None ∧
        StopSession env' true w1 =
          Crashed NullDereference
            {| this := this w1;
               trace := trace w1 ++
                        [EvEngine (VoipEngine.StopSend (CreateChannel_ret env)) kOk;
                         EvEngine (VoipEngine.StopPlayout (CreateChannel_ret env)) kOk] |}.
Proof.
  intros Hrtp H1 H2. eexists. split; [apply StartSession_rtp_failure; assumption |].
  simpl. repeat split.
  unfold_members; simpl. rewrite H1; simpl. rewrite H2; simpl.
  flatten_trace. reflexivity.
Qed.

Lemma StopSession_after_failed_StartSession_null_dereference_witness :
  (rtp_Create_ok env_rtp_busy = false ∧ StopSend_ret env_ok = kOk ∧
   StopPlayout_ret env_ok = kOk) ∧
  ∃ w1 w2, StartSession env_rtp_busy true (Create []) = Returned tt w1 ∧
           StopSession env_ok true w1 = Crashed NullDereference w2.
Proof.
  split; [repeat split |].
  destruct (StopSession_after_failed_StartSession_null_dereference
              env_rtp_busy env_ok (Create []) eq_refl eq_refl eq_refl)
    as (w1 & Hstart & _ & _ & Hstop).
  exists w1. eexists. split; [exact Hstart | exact Hstop].
Defined.

(** C2.  StartSession has no guard.  On the session the client reached
    on channel 1, a second StartSession, for which the engine hands out
    channel 2 and the rtp address is still in use, replaces the channel
    handle by 2 and drops the open rtp socket: the session state is not
    what it was.  Channel 1 is never released and stays allocated beside
    channel 2. *)
Theorem StartSession_while_active_overwrites_session :
  reachable [pcmu_spec; opus_spec] started_world ∧
  channel_ (this started_world) = Some 1 ∧
  ∃ w', StartSession env_second_start true started_world = Returned tt w' ∧
        channel_ (this w') = Some 2 ∧
        rtp_socket_ (this w') = None ∧
        this w' ≠ this started_world ∧
        engine_calls (drop (length (trace started_world)) (trace w')) = [] ∧
        logged (trace w') = ["Socket creation failed"%string] ∧
        callbacks (trace w') = [] ∧
        allocated (trace w') = {[ 1; 2 ]}.
Proof.
  split; [exact started_world_reachable |]. split; [reflexivity |].
  eexists. split; [lazy; reflexivity |]. simpl.
  repeat split; try reflexivity. discriminate.
Qed.

(** ** Packet tasks *)

Lemma SendRtpPacket_with_socket env packet_copy w s :
  rtp_socket_ (this w) = Some s →
  SendRtpPacket env packet_copy w =
  Returned tt
    {| this := this w;
       trace := trace w ++
                EvSendTo rtp_socket packet_copy (rtp_remote_address_ (this w))
                         (rtp_SendTo_ret env) ::
                (if rtp_SendTo_ret env =? 0
                 then [EvLog "Failed to send RTP packet"] else []) |}.
Proof.
  destruct w as [v t]; simpl. intros Hs.
  unfold_members; simpl. rewrite Hs; simpl.
  destruct (rtp_SendTo_ret env =? 0); simpl; flatten_trace; reflexivity.
Qed.

Lemma SendRtcpPacket_with_socket env packet_copy w s :
  rtcp_socket_ (this w) = Some s →
  SendRtcpPacket env packet_copy w =
  Returned tt
    {| this := this w;
       trace := trace w ++
                EvSendTo rtcp_socket packet_copy (rtcp_remote_address_ (this w))
                         (rtcp_SendTo_ret env) ::
                (if rtcp_SendTo_ret env =? 0
                 then [EvLog "Failed to send RTCP packet"] else []) |}.
Proof.
  destruct w as [v t]; simpl. intros Hs.
  unfold_members; simpl. rewrite Hs; simpl.
  destruct (rtcp_SendTo_ret env =? 0); simpl; flatten_trace; reflexivity.
Qed.

Lemma SendRtpPacket_null_socket env packet_copy w :
  rtp_socket_ (this w) = None →
  SendRtpPacket env packet_copy w = Crashed NullDereference w.
Proof.
  destruct w as [v t]; simpl. intros Hs.
  unfold_members; simpl. rewrite Hs. reflexivity.
Qed.

Lemma SendRtcpPacket_null_socket env packet_copy w :
  rtcp_socket_ (this w) = None →
  SendRtcpPacket env packet_copy w = Crashed NullDereference w.
Proof.
  destruct w as [v t]; simpl. intros Hs.
  unfold_members; simpl. rewrite Hs. reflexivity.
Qed.

(** The inbound tasks do look at the channel handle before they touch the
    engine. *)
Lemma ReadRTPPacket_without_channel env packet_copy w :
  channel_ (this w) = None →
  ReadRTPPacket env packet_copy w =
  Returned tt {| this := this w;
                 trace := trace w ++ [EvLog "Channel has not been created"] |}.
Proof.
  destruct w as [v t]; simpl. intros Hc.
  unfold_members; simpl. rewrite Hc. reflexivity.
Qed.

Lemma ReadRTCPPacket_without_channel env packet_copy w :
  channel_ (this w) = None →
  ReadRTCPPacket env packet_copy w =
  Returned tt {| this := this w;
                 trace := trace w ++ [EvLog "Channel has not been created"] |}.
Proof.
  destruct w as [v t]; simpl. intros Hc.
  unfold_members; simpl. rewrite Hc. reflexivity.
Qed.

(** C5.  The outbound tasks do not re-check anything.  A StartSession
    fails at the rtp socket, StartSend is accepted on the channel it left
    behind, the engine hands over a packet, and the queued SendRtpPacket
    dereferences the null rtp socket: no logged drop.  Run after a
    successful StopSession, the task still calls SendTo on the closed
    socket.  Run on a client without channel, the inbound task drops the
    packet with a log line and no engine call. *)
Theorem SendRtpPacket_does_not_recheck :
  (∃ w1 w2 w3 w4,
     StartSession env_rtp_busy true (Create []) = Returned tt w1 ∧
     StartSend env_ok true w1 = Returned tt w2 ∧
     SendRtp [x80; x00; x01]%byte 3 {| packet_id := 0 |} w2 = Returned true w3 ∧
     run_next env_ok w3 = Crashed NullDereference w4 ∧
     logged (trace w4) = ["Socket creation failed"%string]) ∧
  (∃ w1 w2,
     StopSession env_ok true (active_world []) = Returned tt w1 ∧
     channel_ (this w1) = None ∧
     SendRtpPacket env_ok [x80; x00; x01]%byte w1 = Returned tt w2 ∧
     trace w2 = trace w1 ++
                [EvSendTo rtp_socket [x80; x00; x01]%byte (loopback 20000) 3]) ∧
  (∃ w1,
     ReadRTPPacket env_ok [x80; x00; x01]%byte (Create []) = Returned tt w1 ∧
     this w1 = this (Create []) ∧
     trace w1 = [EvLog "Channel has not been created"]).
Proof.
  split; [| split].
  - eexists _, _, _, _.
    split; [lazy; reflexivity |]. split; [lazy; reflexivity |].
    split; [lazy; reflexivity |]. split; [lazy; reflexivity |]. reflexivity.
  - eexists _, _.
    split; [lazy; reflexivity |]. split; [reflexivity |].
    split; [lazy; reflexivity |]. reflexivity.
  - eexists. split; [lazy; reflexivity |]. split; reflexivity.
Qed.

(** For every buffer and every length within it, zero included, SendRtp
    and SendRtcp return [true] and do nothing but append to the worker's
    queue one task that carries the first [length] bytes of the buffer,
    copied.  Whenever that task later runs with its socket in place, it
    makes the one SendTo call with that copy to the remote endpoint and,
    whatever SendTo returns, leaves the client untouched; a zero result
    adds a log line and nothing else. *)
Lemma SendRtp_SendRtcp_accept_and_copy
    (w : World) (packet : list byte) (length : nat) (options : PacketOptions) :
  (length ≤ List.length packet)%nat →
  let packet_copy := firstn length packet in
  SendRtp packet length options w =
    Returned true
      {| this := set_voip_thread_ (voip_thread_ (this w) ++ [TSendRtpPacket packet_copy])
                                  (this w);
         trace := trace w |} ∧
  SendRtcp packet length w =
    Returned true
      {| this := set_voip_thread_ (voip_thread_ (this w) ++ [TSendRtcpPacket packet_copy])
                                  (this w);
         trace := trace w |} ∧
  List.length packet_copy = length ∧
  (∀ i, (i < length)%nat → packet_copy !! i = packet !! i) ∧
  (∀ env w2 s, rtp_socket_ (this w2) = Some s →
     run_task env (TSendRtpPacket packet_copy) w2 =
     Returned tt
       {| this := this w2;
          trace := trace w2 ++
                   EvSendTo rtp_socket packet_copy (rtp_remote_address_ (this w2))
                            (rtp_SendTo_ret env) ::
                   (if rtp_SendTo_ret env =? 0
                    then [EvLog "Failed to send RTP packet"] else []) |}) ∧
  (∀ env w2 s, rtcp_socket_ (this w2) = Some s →
     run_task env (TSendRtcpPacket packet_copy) w2 =
     Returned tt
       {| this := this w2;
          trace := trace w2 ++
                   EvSendTo rtcp_socket packet_copy (rtcp_remote_address_ (this w2))
                            (rtcp_SendTo_ret env) ::
                   (if rtcp_SendTo_ret env =? 0
                    then [EvLog "Failed to send RTCP packet"] else []) |}).
Proof.
  intros Hlen packet_copy.
  assert (Hle : (length <=? List.length packet)%nat = true) by (apply Nat.leb_le; lia).
  repeat split.
  - unfold_members; simpl. rewrite Hle. reflexivity.
  - unfold_members; simpl. rewrite Hle. reflexivity.
  - subst packet_copy. rewrite length_take. lia.
  - intros i Hi. subst packet_copy. apply lookup_take_lt. exact Hi.
  - intros env w2 s Hs. simpl. eapply SendRtpPacket_with_socket; eassumption.
  - intros env w2 s Hs. simpl. eapply SendRtcpPacket_with_socket; eassumption.
Qed.

(** C6.  On the session the client reached, SendRtp and SendRtcp accept
    a three-byte packet with [true] and the queued tasks hand the copy to
    the sockets; when SendTo fails and returns -1, the tasks write no log
    line at all, because the test [!SendTo(...)] is true only for 0.  An
    empty packet that the socket does send (SendTo returns 0, the bytes
    sent) is what gets logged as "Failed to send".  Nothing is passed back
    to the engine in either case, and the client is unchanged. *)
Theorem SendTo_failure_is_not_logged :
  reachable [pcmu_spec; opus_spec] started_world ∧
  (∃ w1 w2 w3 w4,
     SendRtp [x80; x00; x01]%byte 3 {| packet_id := 0 |} started_world
       = Returned true w1 ∧
     SendRtcp [x80; x00; x01]%byte 3 w1 = Returned true w2 ∧
     run_next env_send_fails w2 = Returned tt w3 ∧
     run_next env_send_fails w3 = Returned tt w4 ∧
     this w4 = this started_world ∧
     trace w4 = trace started_world ++
                [EvSendTo rtp_socket [x80; x00; x01]%byte (loopback 20000) (-1);
                 EvSendTo rtcp_socket [x80; x00; x01]%byte (loopback 20001) (-1)] ∧
     logged (trace w4) = []) ∧
  (∃ w1 w2,
     SendRtp [] 0 {| packet_id := 0 |} started_world = Returned true w1 ∧
     run_next env_send_empty w1 = Returned tt w2 ∧
     this w2 = this started_world ∧
     trace w2 = trace started_world ++
                [EvSendTo rtp_socket [] (loopback 20000) 0;
                 EvLog "Failed to send RTP packet"]).
Proof.
  split; [exact started_world_reachable |]. split.
  - eexists _, _, _, _.
    split; [lazy; reflexivity |]. split; [lazy; reflexivity |].
    split; [lazy; reflexivity |]. split; [lazy; reflexivity |].
    repeat split; reflexivity.
  - eexists _, _.
    split; [lazy; reflexivity |]. split; [lazy; reflexivity |].
    split; reflexivity.
Qed.

(** ** Codec selection *)

Lemma std_find_elem_of (l : list string) (x : string) :
  std_find l x = true ↔ x ∈ l.
Proof.
  induction l as [| y l IH]; simpl.
  - split; [discriminate | intros H; inversion H].
  - destruct (String.eqb y x) eqn:E.
    + apply String.eqb_eq in E as ->. split; [intros _; left | reflexivity].
    + apply String.eqb_neq in E. rewrite IH. split.
      * intros H. by right.
      * intros H. inversion H; subst; [congruence | assumption].
Qed.

(** The names and payload types of the table, by cases. *)
Lemma table_lookup_cases codec_name pt :
  table_lookup codec_name = Some pt →
  (codec_name = "PCMU" ∧ pt = 0) ∨ (codec_name = "PCMA" ∧ pt = 8) ∨
  (codec_name = "G722" ∧ pt = 9) ∨ (codec_name = "opus" ∧ pt = 96) ∨
  (codec_name = "ISAC" ∧ pt = 97) ∨ (codec_name = "ILBC" ∧ pt = 98).
Proof.
  unfold table_lookup, payload_type_table. cbn -[String.eqb].
  repeat (match goal with
          | |- context [String.eqb ?a codec_name] =>
              let E := fresh "E" in
              destruct (String.eqb a codec_name) eqn:E;
              [apply String.eqb_eq in E | clear E]
          end; cbn -[String.eqb]);
    intros H; inversion H; subst; naive_solver.
Qed.

Lemma table_lookup_injective n1 n2 pt :
  table_lookup n1 = Some pt → table_lookup n2 = Some pt → n1 = n2.
Proof.
  intros H1 H2.
  apply table_lookup_cases in H1. apply table_lookup_cases in H2.
  destruct H1 as [[-> ->] | [[-> ->] | [[-> ->] | [[-> ->] | [[-> ->] | [-> ->]]]]]];
  destruct H2 as [[-> H] | [[-> H] | [[-> H] | [[-> H] | [[-> H] | [-> H]]]]]];
    first [reflexivity | discriminate H].
Qed.

(** On a name of the table GetPayloadType returns the table's payload
    type, whether or not the build checks RTC_DCHECK. *)
Lemma GetPayloadType_table env codec_name pt w :
  table_lookup codec_name = Some pt →
  GetPayloadType env codec_name w = Returned pt w.
Proof.
  intros H. apply table_lookup_cases in H.
  destruct H as [[-> ->] | [[-> ->] | [[-> ->] | [[-> ->] | [[-> ->] | [-> ->]]]]]];
    unfold GetPayloadType, RTC_DCHECK, bind, ret; simpl;
    rewrite andb_false_r; reflexivity.
Qed.

Lemma first_named_None encoder codecs :
  encoder ∉ map (fun spec => name (format spec)) codecs →
  first_named encoder codecs = None.
Proof.
  unfold first_named. induction codecs as [| codec rest IH]; simpl; [reflexivity |].
  intros Hnot. destruct (String.eqb (name (format codec)) encoder) eqn:E.
  - apply String.eqb_eq in E. exfalso. apply Hnot. rewrite <- E. left.
  - apply IH. intros Hin. apply Hnot. by right.
Qed.

Lemma first_named_Some encoder codecs :
  encoder ∈ map (fun spec => name (format spec)) codecs →
  ∃ codec, first_named encoder codecs = Some codec ∧
           codec ∈ codecs ∧ name (format codec) = encoder.
Proof.
  unfold first_named. induction codecs as [| codec rest IH]; simpl.
  - intros H. inversion H.
  - intros Hin. destruct (String.eqb (name (format codec)) encoder) eqn:E.
    + apply String.eqb_eq in E. exists codec. repeat split; [left | exact E].
    + apply String.eqb_neq in E.
      inversion Hin; subst; [congruence |].
      destruct IH as (codec' & Hf & Hin' & Hn); [assumption |].
      exists codec'. repeat split; [exact Hf | by right | exact Hn].
Qed.

Lemma SetEncoder_loop_first_named_None env channel encoder codecs w :
  first_named encoder codecs = None →
  SetEncoder_loop env channel encoder codecs w = Returned tt w.
Proof.
  unfold first_named. induction codecs as [| codec rest IH]; simpl; [reflexivity |].
  destruct (String.eqb (name (format codec)) encoder); [discriminate | exact IH].
Qed.

Lemma SetEncoder_loop_first_named_Some env channel encoder codecs codec pt w :
  first_named encoder codecs = Some codec →
  table_lookup encoder = Some pt →
  SetEncoder_loop env channel encoder codecs w =
  (if bool_decide (SetSendCodec_ret env = kOk)
   then Returned tt else Crashed CheckFailed)
    {| this := this w;
       trace := trace w ++ [EvEngine (VoipEngine.SetSendCodec channel pt (format codec))
                                     (SetSendCodec_ret env)] |}.
Proof.
  unfold first_named. intros Hfind Hpt.
  induction codecs as [| codec' rest IH]; simpl in *; [discriminate |].
  destruct (String.eqb (name (format codec')) encoder) eqn:E; [| exact (IH Hfind)].
  injection Hfind as ->. apply String.eqb_eq in E.
  unfold bind. rewrite (GetPayloadType_table env _ pt w) by (rewrite E; exact Hpt).
  unfold engine, bind, emit, ret, RTC_CHECK, fault; simpl.
  destruct (bool_decide (SetSendCodec_ret env = kOk)); reflexivity.
Qed.

(** C8.  With a channel present, SetEncoder on a name that is not in the
    supported codec list returns with the world exactly as it was: no
    engine call, no change.  On a name that is in the list and in the
    payload-type table, it makes exactly one engine call, SetSendCodec
    with the channel, the table's payload type for that name
    (PCMU→0, PCMA→8, G722→9, opus→96, ISAC→97, ILBC→98) and the format of
    the first listed codec of that name; nothing else changes. *)
Theorem SetEncoder_calls_SetSendCodec_once env w c (encoder : string) :
  channel_ (this w) = Some c →
  (encoder ∉ GetSupportedCodecs (this w) →
   SetEncoder env true encoder w = Returned tt w) ∧
  (encoder ∈ GetSupportedCodecs (this w) →
   ∀ pt, (encoder, pt) ∈ payload_type_table →
   ∃ codec,
     codec ∈ supported_codecs_ (this w) ∧ name (format codec) = encoder ∧
     first_named encoder (supported_codecs_ (this w)) = Some codec ∧
     SetEncoder env true encoder w =
     (if bool_decide (SetSendCodec_ret env = kOk)
      then Returned tt else Crashed CheckFailed)
       {| this := this w;
          trace := trace w ++ [EvEngine (VoipEngine.SetSendCodec c pt (format codec))
                                        (SetSendCodec_ret env)] |}).
Proof.
  intros Hc. split.
  - intros Hnot. unfold SetEncoder, RUN_ON_VOIP_THREAD, bind, get; simpl.
    rewrite Hc. apply SetEncoder_loop_first_named_None, first_named_None, Hnot.
  - intros Hin pt Hpt.
    destruct (first_named_Some _ _ Hin) as (codec & Hfind & Hmem & Hname).
    exists codec. repeat split; try assumption.
    unfold SetEncoder, RUN_ON_VOIP_THREAD, bind, get; simpl. rewrite Hc.
    apply SetEncoder_loop_first_named_Some; [exact Hfind |].
    unfold payload_type_table in Hpt.
    repeat (apply elem_of_cons in Hpt as [Hpt | Hpt];
            [injection Hpt as -> ->; reflexivity |]).
    inversion Hpt.
Qed.

Lemma SetEncoder_calls_SetSendCodec_once_witness :
  channel_ (this (active_world [pcmu_spec; opus_spec])) = Some 0 ∧
  SetEncoder env_ok true "G722" (active_world [pcmu_spec; opus_spec])
    = Returned tt (active_world [pcmu_spec; opus_spec]) ∧
  ∃ codec,
    SetEncoder env_ok true "opus" (active_world [pcmu_spec; opus_spec])
    = Returned tt
        {| this := active_client [pcmu_spec; opus_spec];
           trace := [EvEngine (VoipEngine.SetSendCodec 0 96 (format codec)) kOk] |}.
Proof.
  split; [reflexivity |].
  destruct (SetEncoder_calls_SetSendCodec_once
              env_ok (active_world [pcmu_spec; opus_spec]) 0 "G722" eq_refl)
    as [Habsent _].
  destruct (SetEncoder_calls_SetSendCodec_once
              env_ok (active_world [pcmu_spec; opus_spec]) 0 "opus" eq_refl)
    as [_ Hpresent].
  split.
  - apply Habsent. simpl. intros H.
    repeat (apply elem_of_cons in H as [H | H]; [discriminate H |]).
    inversion H.
  - destruct (Hpresent ltac:(simpl; right; left) 96
                ltac:(unfold payload_type_table; do 3 right; left))
      as (codec & _ & _ & _ & Hrun).
    exists codec. exact Hrun.
Defined.

(** The map the [for] loop of SetDecoders builds on a catalog of table
    codecs: an entry already present stays, and every other payload type
    gets the format of the first requested codec that has it. *)
Lemma SetDecoders_loop_lookup env decoders codecs m0 w :
  Forall (fun codec => is_Some (table_lookup (name (format codec)))) codecs →
  ∃ m, SetDecoders_loop env decoders codecs m0 w = Returned m w ∧
       ∀ pt, m !! pt = match m0 !! pt with
                       | Some f => Some f
                       | None => format <$> first_requested decoders pt codecs
                       end.
Proof.
  intros Hall. revert m0.
  induction Hall as [| codec rest [k Hk] _ IH]; intros m0; simpl.
  - exists m0. split; [reflexivity |]. intros pt. by destruct (m0 !! pt).
  - unfold first_requested in *. cbn [find].
    destruct (std_find decoders (name (format codec))) eqn:Hreq; cbn [andb].
    + unfold bind. rewrite (GetPayloadType_table env _ k w Hk).
      destruct (IH (map_insert k (format codec) m0)) as (m & Hrun & Hm).
      exists m. split; [exact Hrun |]. intros pt. rewrite Hm, Hk.
      unfold map_insert. destruct (decide (k = pt)) as [-> | Hne].
      * rewrite bool_decide_eq_true_2 by reflexivity.
        destruct (m0 !! pt) eqn:E; [by rewrite E |].
        by rewrite lookup_insert_eq.
      * rewrite bool_decide_eq_false_2 by congruence.
        destruct (m0 !! k); [reflexivity |].
        by rewrite lookup_insert_ne.
    + apply IH.
Qed.

Lemma first_requested_Some decoders pt codecs codec :
  first_requested decoders pt codecs = Some codec →
  codec ∈ codecs ∧ name (format codec) ∈ decoders ∧
  table_lookup (name (format codec)) = Some pt.
Proof.
  unfold first_requested. intros H. apply find_some in H as [Hin Hp].
  apply andb_true_iff in Hp as [Hreq Hpt].
  apply bool_decide_eq_true_1 in Hpt. apply std_find_elem_of in Hreq.
  apply list_elem_of_In in Hin. done.
Qed.

Lemma first_requested_exists decoders pt codecs codec :
  codec ∈ codecs → name (format codec) ∈ decoders →
  table_lookup (name (format codec)) = Some pt →
  is_Some (first_requested decoders pt codecs).
Proof.
  unfold first_requested. intros Hin Hreq Hpt.
  match goal with |- is_Some ?o => destruct o eqn:E end; [by eexists |].
  exfalso. apply list_elem_of_In in Hin.
  pose proof (find_none _ _ E codec Hin) as Hp. simpl in Hp.
  apply std_find_elem_of in Hreq. rewrite Hreq in Hp. simpl in Hp.
  rewrite bool_decide_eq_true_2 in Hp by exact Hpt. discriminate.
Qed.

Lemma NoDup_names_unique (codecs : list AudioCodecSpec) codec codec' :
  NoDup (map (fun spec => name (format spec)) codecs) →
  codec ∈ codecs → codec' ∈ codecs →
  name (format codec) = name (format codec') → codec = codec'.
Proof.
  induction codecs as [| x rest IH]; simpl; intros Hnd Hin Hin' Hname.
  - inversion Hin.
  - apply NoDup_cons in Hnd as [Hx Hnd].
    assert (Hmem : ∀ y, y ∈ rest → name (format y) ∈ map (fun spec => name (format spec)) rest).
    { intros y Hy. apply list_elem_of_In, in_map_iff. exists y.
      split; [reflexivity | by apply list_elem_of_In]. }
    apply elem_of_cons in Hin as [-> | Hin]; apply elem_of_cons in Hin' as [-> | Hin'].
    + reflexivity.
    + exfalso. apply Hx. rewrite Hname. by apply Hmem.
    + exfalso. apply Hx. rewrite <- Hname. by apply Hmem.
    + by apply IH.
Qed.

(** C9 fails as stated.  The catalog lists ISAC twice, at 16 kHz and at
    32 kHz.  Asked for ISAC,
    SetDecoders passes a map that binds payload type 97 to the 16 kHz
    format only: the pair (97, 32 kHz format) of the second supported
    codec, whose name does occur in the request, is not in the map. *)
Lemma SetDecoders_duplicate_name_counterexample :
  ∃ m,
    SetDecoders env_ok true ["ISAC"%string] (active_world [isac16_spec; isac32_spec])
    = Returned tt
        {| this := active_client [isac16_spec; isac32_spec];
           trace := [EvEngine (VoipEngine.SetReceiveCodecs 0 m) kOk] |} ∧
    isac32_spec ∈ supported_codecs_ (active_client [isac16_spec; isac32_spec]) ∧
    name (format isac32_spec) ∈ ["ISAC"%string] ∧
    ("ISAC"%string, 97) ∈ payload_type_table ∧
    m !! 97 = Some (format isac16_spec) ∧
    m !! 97 ≠ Some (format isac32_spec).
Proof.
  eexists. split; [reflexivity |].
  split; [right; left |]. split; [left |].
  split; [unfold payload_type_table; do 4 right; left |].
  split; [reflexivity | discriminate].
Qed.

(** C9, amended.  With a channel present and a catalog of table codecs,
    SetDecoders makes exactly one engine call, SetReceiveCodecs, and
    nothing else.  Its map binds a payload type to the format of the
    first supported codec, in catalog order, that has this payload type
    and whose name occurs in the request, and binds nothing else; names
    that are not in the catalog contribute nothing.  When no two supported
    codecs share a name, the bindings are exactly the (payload type,
    format) pairs of the supported codecs whose name occurs in the
    request. *)
Theorem SetDecoders_first_requested_codec_wins env w c (decoders : list string) :
  channel_ (this w) = Some c →
  Forall (fun codec => is_Some (table_lookup (name (format codec))))
         (supported_codecs_ (this w)) →
  ∃ m,
    SetDecoders env true decoders w =
    (if bool_decide (SetReceiveCodecs_ret env = kOk)
     then Returned tt else Crashed CheckFailed)
      {| this := this w;
         trace := trace w ++ [EvEngine (VoipEngine.SetReceiveCodecs c m)
                                       (SetReceiveCodecs_ret env)] |} ∧
    (∀ pt, m !! pt =
           format <$> first_requested decoders pt (supported_codecs_ (this w))) ∧
    (∀ pt fmt, m !! pt = Some fmt →
       ∃ codec, codec ∈ supported_codecs_ (this w) ∧
                name (format codec) ∈ decoders ∧
                table_lookup (name (format codec)) = Some pt ∧
                format codec = fmt) ∧
    (NoDup (GetSupportedCodecs (this w)) →
     ∀ codec pt, codec ∈ supported_codecs_ (this w) →
                 name (format codec) ∈ decoders →
                 table_lookup (name (format codec)) = Some pt →
                 m !! pt = Some (format codec)).
Proof.
  intros Hc Hall.
  destruct (SetDecoders_loop_lookup env decoders _ ∅ w Hall) as (m & Hloop & Hm).
  assert (Hm' : ∀ pt, m !! pt =
                 format <$> first_requested decoders pt (supported_codecs_ (this w))).
  { intros pt. rewrite Hm, lookup_empty. reflexivity. }
  exists m. split; [| split; [exact Hm' | split]].
  - unfold SetDecoders, RUN_ON_VOIP_THREAD; simpl.
    unfold bind at 1. unfold get at 1. rewrite Hc.
    unfold bind at 1. rewrite Hloop.
    unfold engine, bind, emit, ret, RTC_CHECK, fault; simpl.
    destruct (bool_decide (SetReceiveCodecs_ret env = kOk)); reflexivity.
  - intros pt fmt Hpt. rewrite Hm' in Hpt.
    destruct (first_requested decoders pt (supported_codecs_ (this w)))
      as [codec |] eqn:E; [| discriminate].
    injection Hpt as <-.
    apply first_requested_Some in E as (Hin & Hreq & Htab).
    exists codec. done.
  - intros Hnd codec pt Hin Hreq Htab. rewrite Hm'.
    destruct (first_requested_exists decoders pt _ codec Hin Hreq Htab) as [codec' E].
    rewrite E. simpl. f_equal. f_equal.
    apply first_requested_Some in E as (Hin' & _ & Htab').
    apply (NoDup_names_unique (supported_codecs_ (this w))); try assumption.
    eapply table_lookup_injective; eassumption.
Qed.

Lemma SetDecoders_first_requested_codec_wins_witness :
  (channel_ (this (active_world [pcmu_spec; opus_spec])) = Some 0 ∧
   Forall (fun codec => is_Some (table_lookup (name (format codec))))
          (supported_codecs_ (this (active_world [pcmu_spec; opus_spec])))) ∧
  ∃ m, SetDecoders env_ok true ["opus"; "L16"]%string (active_world [pcmu_spec; opus_spec])
       = Returned tt
           {| this := active_client [pcmu_spec; opus_spec];
              trace := [EvEngine (VoipEngine.SetReceiveCodecs 0 m) kOk] |} ∧
       m !! 96 = Some (format opus_spec) ∧ m !! 0 = None.
Proof.
  assert (Hall : Forall (fun codec => is_Some (table_lookup (name (format codec))))
                        (supported_codecs_ (this (active_world [pcmu_spec; opus_spec])))).
  { simpl. repeat constructor; by eexists. }
  split; [split; [reflexivity | exact Hall] |].
  destruct (SetDecoders_first_requested_codec_wins
              env_ok (active_world [pcmu_spec; opus_spec]) 0 ["opus"; "L16"]%string
              eq_refl Hall)
    as (m & Hrun & Hm & _).
  exists m. split; [exact Hrun |]. rewrite !Hm. split; reflexivity.
Defined.

(** ** The invariant over all runs *)

Lemma GetPayloadType_Returned env codec_name w pt w' :
  GetPayloadType env codec_name w = Returned pt w' → w' = w.
Proof.
  unfold GetPayloadType, RTC_DCHECK, bind, ret, fault.
  repeat case_match; intros ?; simplify_eq; reflexivity.
Qed.

Lemma SetEncoder_loop_this env channel encoder codecs w w' :
  SetEncoder_loop env channel encoder codecs w = Returned tt w' → this w' = this w.
Proof.
  induction codecs as [| codec rest IH]; simpl.
  - unfold ret. intros H. by simplify_eq.
  - destruct (String.eqb (name (format codec)) encoder); [| exact IH].
    unfold bind. destruct (GetPayloadType env _ w) as [pt w1 | f w1] eqn:E; [| discriminate].
    apply GetPayloadType_Returned in E as ->.
    unfold engine, bind, emit, ret, RTC_CHECK, fault; simpl.
    case_match; unfold ret; intros ?; by simplify_eq.
Qed.

Lemma SetDecoders_loop_world env decoders codecs m0 w m w' :
  SetDecoders_loop env decoders codecs m0 w = Returned m w' → w' = w.
Proof.
  revert m0. induction codecs as [| codec rest IH]; intros m0; simpl.
  - unfold ret. intros H. by simplify_eq.
  - destruct (std_find decoders (name (format codec))); [| apply IH].
    unfold bind. destruct (GetPayloadType env _ w) as [pt w1 | f w1] eqn:E; [| discriminate].
    apply GetPayloadType_Returned in E as ->. apply IH.
Qed.

(** Members that leave the channel handle and both sockets alone keep the
    invariant. *)
Lemma open_socket_has_channel_same v v' :
  channel_ v' = channel_ v → rtp_socket_ v' = rtp_socket_ v →
  rtcp_socket_ v' = rtcp_socket_ v →
  open_socket_has_channel v → open_socket_has_channel v'.
Proof.
  unfold open_socket_has_channel. intros Hc H1 H2 Hinv which s.
  rewrite Hc. intros Hs. apply (Hinv which s).
  destruct which; simpl in *; congruence.
Qed.

Lemma open_socket_has_channel_Some v :
  is_Some (channel_ v) → open_socket_has_channel v.
Proof. intros H which s _ _. exact H. Qed.

Ltac crunch H :=
  unfold_members; simpl in H; repeat case_match; simplify_eq; simpl in *.

Ltac keep_invariant :=
  first
    [ assumption
    | apply open_socket_has_channel_Some; simpl; by eexists
    | eapply open_socket_has_channel_same; [.. | eassumption]; reflexivity
    | let Hs := fresh "Hs" in
      let Hcl := fresh "Hcl" in
      intros [] ? Hs Hcl; simpl in Hs; simplify_eq; simpl in Hcl; discriminate Hcl ].

Lemma SetEncoder_preserves env IsCurrent encoder w w' :
  SetEncoder env IsCurrent encoder w = Returned tt w' →
  open_socket_has_channel (this w) → open_socket_has_channel (this w').
Proof.
  destruct w as [v t]. intros H Hinv. simpl in *.
  destruct IsCurrent; unfold SetEncoder, RUN_ON_VOIP_THREAD in H; simpl in H.
  - unfold bind at 1 in H. unfold get at 1 in H. cbn [this] in H.
    destruct (channel_ v); [apply SetEncoder_loop_this in H; simpl in H; by rewrite H |].
    crunch H. keep_invariant.
  - crunch H. keep_invariant.
Qed.

Lemma SetDecoders_preserves env IsCurrent decoders w w' :
  SetDecoders env IsCurrent decoders w = Returned tt w' →
  open_socket_has_channel (this w) → open_socket_has_channel (this w').
Proof.
  destruct w as [v t]. intros H Hinv. simpl in *.
  destruct IsCurrent; unfold SetDecoders, RUN_ON_VOIP_THREAD in H; simpl in H.
  - unfold bind at 1 in H. unfold get at 1 in H. cbn [this] in H.
    destruct (channel_ v).
    + unfold bind at 1 in H.
      destruct (SetDecoders_loop env decoders _ ∅ _) as [m w1 | f w1] eqn:E;
        [| discriminate].
      apply SetDecoders_loop_world in E as ->.
      crunch H. keep_invariant.
    + crunch H. keep_invariant.
  - crunch H. keep_invariant.
Qed.

Lemma call_preserves env IsCurrent method w w' :
  call env IsCurrent method w = Returned tt w' →
  open_socket_has_channel (this w) → open_socket_has_channel (this w').
Proof.
  destruct method; simpl;
    [apply SetEncoder_preserves | apply SetDecoders_preserves | ..];
    destruct w as [v t]; intros H Hinv; simpl in *;
    try destruct IsCurrent; crunch H; keep_invariant.
Qed.

Lemma run_next_preserves env w w' :
  run_next env w = Returned tt w' →
  open_socket_has_channel (this w) → open_socket_has_channel (this w').
Proof.
  destruct w as [v t]. unfold run_next, bind, get, modify, ret; simpl.
  destruct (voip_thread_ v) as [| task q] eqn:Hq.
  - intros H Hinv. by simplify_eq.
  - intros H Hinv. change (run_task env task) with (call env true task) in H.
    eapply call_preserves; [exact H |]. simpl.
    eapply open_socket_has_channel_same; [.. | exact Hinv]; reflexivity.
Qed.

Lemma step_preserves w w' :
  step w w' →
  open_socket_has_channel (this w) → open_socket_has_channel (this w').
Proof.
  intros Hstep Hinv. destruct Hstep as
    [env IsCurrent method w w' H | packet length options b w w' H
    | packet length b w w' H | rtp_packet size w w' H | rtcp_packet size w w' H
    | env w w' H].
  - eapply call_preserves; eassumption.
  - destruct w as [v t]. crunch H. keep_invariant.
  - destruct w as [v t]. crunch H. keep_invariant.
  - destruct w as [v t]. crunch H. keep_invariant.
  - destruct w as [v t]. crunch H. keep_invariant.
  - eapply run_next_preserves; eassumption.
Qed.

Lemma reachable_invariant codecs w :
  reachable codecs w → open_socket_has_channel (this w).
Proof.
  induction 1 as [| w w' _ IH Hstep].
  - intros which s Hs. destruct which; discriminate Hs.
  - eapply step_preserves; eassumption.
Qed.

(** C3 fails as stated.  On a fresh client StartSession is called from
    another thread and posted; when the worker runs it, the rtp socket
    cannot be bound.  The state reached has the channel handle set and no
    rtp socket. *)
Lemma channel_iff_sockets_counterexample :
  ∃ w, reachable [] w ∧
       channel_ (this w) = Some 1 ∧ rtp_socket_ (this w) = None ∧
       ¬ channel_iff_sockets (this w).
Proof.
  eexists. split.
  - eapply reachable_step;
      [eapply reachable_step; [apply reachable_Create |] |].
    + apply (step_call env_ok false TStartSession). reflexivity.
    + apply (step_run env_rtp_busy). reflexivity.
  - simpl. repeat split. intros [Hto _].
    destruct Hto as [[s Hs] _]; [by eexists | discriminate Hs].
Qed.

(** C3, amended.  In every state reachable by any sequence of member
    calls, packet hand-overs and task runs, a socket that exists and is
    open comes with a channel handle; every step from such a state keeps
    this; and a StartSession from it whose two socket creations succeed
    leaves the channel handle and both sockets present and open. *)
Theorem reachable_open_socket_has_channel codecs w :
  reachable codecs w →
  open_socket_has_channel (this w) ∧
  (∀ w', step w w' → open_socket_has_channel (this w')) ∧
  (∀ env w', rtp_Create_ok env = true → rtcp_Create_ok env = true →
             StartSession env true w = Returned tt w' →
             fully_started (this w') = true ∧
             (closed <$> rtp_socket_ (this w')) = Some false ∧
             (closed <$> rtcp_socket_ (this w')) = Some false).
Proof.
  intros Hreach. pose proof (reachable_invariant _ _ Hreach) as Hinv.
  split; [exact Hinv |]. split.
  - intros w' Hstep. eapply step_preserves; eassumption.
  - intros env w' Hrtp Hrtcp Hrun.
    rewrite (StartSession_success env w Hrtp Hrtcp) in Hrun.
    injection Hrun as <-. simpl. repeat split.
Qed.

Lemma reachable_open_socket_has_channel_witness :
  ∃ w, reachable [opus_spec] w ∧ fully_started (this w) = true ∧
       open_socket_has_channel (this w).
Proof.
  assert (Hpost : step (Create [opus_spec])
                       {| this := set_voip_thread_ [TStartSession] (this (Create [opus_spec]));
                          trace := [] |}).
  { apply (step_call env_ok false TStartSession). reflexivity. }
  assert (Hrun : step {| this := set_voip_thread_ [TStartSession] (this (Create [opus_spec]));
                         trace := [] |}
                      {| this := set_rtcp_socket_
                                   (Some (open_socket SocketAddress_default
                                            rtc.OnSignalReadRTCPPacket))
                                   (set_rtp_socket_
                                      (Some (open_socket SocketAddress_default
                                               rtc.OnSignalReadRTPPacket))
                                      (set_channel_ (Some 1) (this (Create [opus_spec]))));
                         trace := [EvCreateChannel 1;
                                   EvSocketCreate rtp_socket SocketAddress_default true;
                                   EvConnect rtp_socket rtc.OnSignalReadRTPPacket;
                                   EvSocketCreate rtcp_socket SocketAddress_default true;
                                   EvConnect rtcp_socket rtc.OnSignalReadRTCPPacket] |}).
  { apply (step_run env_ok). reflexivity. }
  pose proof (reachable_step _ _ _
                (reachable_step _ _ _ (reachable_Create [opus_spec]) Hpost) Hrun)
    as Hreach.
  eexists. split; [exact Hreach |]. split; [reflexivity |].
  exact (proj1 (reachable_open_socket_has_channel _ _ Hreach)).
Defined.

(** * Further properties of the client *)

(** ** StopSession off the success path *)

(** X1.  Without a channel StopSession touches neither the engine nor a
    socket: it writes its log line, tells a live subscriber
    OnStopSessionCompleted(false) and leaves the client as it was. *)
Theorem StopSession_without_channel env w :
  channel_ (this w) = None →
  StopSession env true w =
  Returned tt
    {| this := this w;
       trace := trace w ++
                EvLog "Channel has not been created" ::
                (if callback_ (this w)
                 then [EvCallback (OnStopSessionCompleted false)] else []) |}.
Proof.
  destruct w as [v t]; simpl. intros Hc.
  unfold_members; simpl. rewrite Hc; simpl.
  destruct (callback_ v); simpl; flatten_trace; reflexivity.
Qed.

Lemma StopSession_without_channel_witness :
  channel_ (this (Create [])) = None ∧
  StopSession env_ok true (Create []) =
  Returned tt {| this := this (Create []);
                 trace := [EvLog "Channel has not been created"] |}.
Proof.
  split; [reflexivity |].
  exact (StopSession_without_channel env_ok (Create []) eq_refl).
Defined.

(** X2.  When the engine refuses StopSend, StopSession does not go on to
    StopPlayout; when it accepts StopSend and refuses StopPlayout, both
    calls have been made.  Either way no socket is closed, the channel is
    not released, the client is unchanged and a live subscriber is told
    OnStopSessionCompleted(false). *)
Theorem StopSession_engine_refusal_keeps_session env w c :
  channel_ (this w) = Some c →
  StopSend_ret env ≠ kOk ∨ StopPlayout_ret env ≠ kOk →
  StopSession env true w =
  Returned tt
    {| this := this w;
       trace := trace w ++
                EvEngine (VoipEngine.StopSend c) (StopSend_ret env) ::
                (if bool_decide (StopSend_ret env = kOk)
                 then [EvEngine (VoipEngine.StopPlayout c) (StopPlayout_ret env)]
                 else []) ++
                (if callback_ (this w)
                 then [EvCallback (OnStopSessionCompleted false)] else []) |}.
Proof.
  destruct w as [v t]; simpl. intros Hc Hfail.
  unfold_members; simpl. rewrite Hc; simpl.
  destruct (bool_decide (StopSend_ret env = kOk)) eqn:E1; simpl.
  - destruct (bool_decide (StopPlayout_ret env = kOk)) eqn:E2; simpl.
    + apply bool_decide_eq_true_1 in E1, E2. destruct Hfail; contradiction.
    + destruct (callback_ v); simpl; flatten_trace; reflexivity.
  - destruct (callback_ v); simpl; flatten_trace; reflexivity.
Qed.

Lemma StopSession_engine_refusal_keeps_session_witness :
  (channel_ (this (active_world [])) = Some 0 ∧
   (StopSend_ret env_stop_refused ≠ kOk ∨ StopPlayout_ret env_stop_refused ≠ kOk)) ∧
  StopSession env_stop_refused true (active_world []) =
  Returned tt
    {| this := active_client [];
       trace := [EvEngine (VoipEngine.StopSend 0) kFailedPrecondition;
                 EvCallback (OnStopSessionCompleted false)] |}.
Proof.
  assert (H : StopSend_ret env_stop_refused ≠ kOk ∨ StopPlayout_ret env_stop_refused ≠ kOk)
    by (left; discriminate).
  split; [split; [reflexivity | exact H] |].
  exact (StopSession_engine_refusal_keeps_session
           env_stop_refused (active_world []) 0 eq_refl H).
Defined.

(** X3.  A second StopSession right after a successful one finds no
    channel: the two together make the three engine calls of the first
    and nothing more, and a live subscriber hears false twice. *)
Theorem StopSession_twice env env' w c s1 s2 :
  channel_ (this w) = Some c →
  rtp_socket_ (this w) = Some s1 →
  rtcp_socket_ (this w) = Some s2 →
  StopSend_ret env = kOk → StopPlayout_ret env = kOk → ReleaseChannel_ret env = kOk →
  ∃ w' evs,
    (StopSession env true ;; StopSession env' true) w = Returned tt w' ∧
    trace w' = trace w ++ evs ∧
    channel_ (this w') = None ∧
    engine_calls evs =
      [VoipEngine.StopSend c; VoipEngine.StopPlayout c; VoipEngine.ReleaseChannel c] ∧
    logged evs = ["Channel has not been created"%string] ∧
    callbacks evs =
      (if callback_ (this w)
       then [OnStopSessionCompleted false; OnStopSessionCompleted false] else []).
Proof.
  intros Hc Hs1 Hs2 H1 H2 H3. eexists _, _. split.
  - unfold bind at 1.
    rewrite (StopSession_success_path env w c s1 s2 Hc Hs1 Hs2 H1 H2 H3).
    apply StopSession_without_channel. reflexivity.
  - simpl. rewrite <- app_assoc. split; [reflexivity |].
    split; [reflexivity |].
    destruct (callback_ (this w)); simpl; repeat split.
Qed.

Lemma StopSession_twice_witness :
  (channel_ (this (active_world [])) = Some 0 ∧ StopSend_ret env_ok = kOk ∧
   StopPlayout_ret env_ok = kOk ∧ ReleaseChannel_ret env_ok = kOk) ∧
  ∃ w', (StopSession env_ok true ;; StopSession env_ok true) (active_world [])
        = Returned tt w' ∧ channel_ (this w') = None.
Proof.
  split; [repeat split |].
  destruct (StopSession_twice env_ok env_ok (active_world []) 0 _ _
              eq_refl eq_refl eq_refl eq_refl eq_refl eq_refl)
    as (w' & evs & Hrun & _ & Hc & _).
  exists w'. split; [exact Hrun | exact Hc].
Defined.

(** ** Send and playout toggles *)

(** X4.  With a channel present each of StartSend, StopSend,
    StartPlayout and StopPlayout makes exactly one engine call, the
    operation of its own name on that channel, passes on whether the
    engine returned kOk as the callback's argument, and changes nothing in
    the client, session included, whatever the engine answered. *)
Theorem toggles_report_engine_result env w c :
  channel_ (this w) = Some c →
  let reported (call : VoipEngine.Call) (r : VoipResult) (e : bool → CallbackEvent) :=
    Returned tt
      {| this := this w;
         trace := trace w ++
                  EvEngine call r ::
                  (if callback_ (this w)
                   then [EvCallback (e (bool_decide (r = kOk)))] else []) |} in
  StartSend env true w =
    reported (VoipEngine.StartSend c) (StartSend_ret env) OnStartSendCompleted ∧
  StopSend env true w =
    reported (VoipEngine.StopSend c) (StopSend_ret env) OnStopSendCompleted ∧
  StartPlayout env true w =
    reported (VoipEngine.StartPlayout c) (StartPlayout_ret env) OnStartPlayoutCompleted ∧
  StopPlayout env true w =
    reported (VoipEngine.StopPlayout c) (StopPlayout_ret env) OnStopPlayoutCompleted.
Proof.
  destruct w as [v t]; simpl. intros Hc.
  repeat split; unfold_members; simpl; rewrite Hc; simpl;
    destruct (callback_ v); simpl; flatten_trace; reflexivity.
Qed.

Lemma toggles_report_engine_result_witness :
  channel_ (this (active_world [])) = Some 0 ∧
  StopSend env_stop_refused true (active_world []) =
  Returned tt
    {| this := active_client [];
       trace := [EvEngine (VoipEngine.StopSend 0) kFailedPrecondition;
                 EvCallback (OnStopSendCompleted false)] |}.
Proof.
  split; [reflexivity |].
  destruct (toggles_report_engine_result env_stop_refused (active_world []) 0 eq_refl)
    as (_ & Hstop & _).
  exact Hstop.
Defined.

(** X5.  Without a channel none of the four toggles reaches the engine:
    each writes the log line, reports false to a live subscriber and
    leaves the client unchanged. *)
Theorem toggles_without_channel env w :
  channel_ (this w) = None →
  let refused (e : bool → CallbackEvent) :=
    Returned tt
      {| this := this w;
         trace := trace w ++
                  EvLog "Channel has not been created" ::
                  (if callback_ (this w) then [EvCallback (e false)] else []) |} in
  StartSend env true w = refused OnStartSendCompleted ∧
  StopSend env true w = refused OnStopSendCompleted ∧
  StartPlayout env true w = refused OnStartPlayoutCompleted ∧
  StopPlayout env true w = refused OnStopPlayoutCompleted.
Proof.
  destruct w as [v t]; simpl. intros Hc.
  repeat split; unfold_members; simpl; rewrite Hc; simpl;
    destruct (callback_ v); simpl; flatten_trace; reflexivity.
Qed.

Lemma toggles_without_channel_witness :
  channel_ (this (Create [])) = None ∧
  StartSend env_ok true (Create []) =
  Returned tt {| this := this (Create []);
                 trace := [EvLog "Channel has not been created"] |}.
Proof.
  split; [reflexivity |].
  destruct (toggles_without_channel env_ok (Create []) eq_refl) as (Hstart & _).
  exact Hstart.
Defined.

(** ** Codec selection off the main path *)

(** X6.  Without a channel SetEncoder and SetDecoders only write the log
    line: no engine call, no callback, the client unchanged, whatever the
    names and the catalog. *)
Theorem SetEncoder_SetDecoders_without_channel env w encoder decoders :
  channel_ (this w) = None →
  SetEncoder env true encoder w =
    Returned tt {| this := this w;
                   trace := trace w ++ [EvLog "Channel has not been created"] |} ∧
  SetDecoders env true decoders w =
    Returned tt {| this := this w;
                   trace := trace w ++ [EvLog "Channel has not been created"] |}.
Proof.
  destruct w as [v t]; simpl. intros Hc.
  split; unfold_members; simpl; rewrite Hc; reflexivity.
Qed.

Lemma SetEncoder_SetDecoders_without_channel_witness :
  channel_ (this (Create [opus_spec])) = None ∧
  SetEncoder env_ok true "opus" (Create [opus_spec]) =
    Returned tt {| this := this (Create [opus_spec]);
                   trace := [EvLog "Channel has not been created"] |}.
Proof.
  split; [reflexivity |].
  destruct (SetEncoder_SetDecoders_without_channel
              env_ok (Create [opus_spec]) "opus" [] eq_refl) as [Henc _].
  exact Henc.
Defined.

Lemma SetDecoders_loop_none_requested env decoders codecs m0 w :
  (∀ codec, codec ∈ codecs → name (format codec) ∉ decoders) →
  SetDecoders_loop env decoders codecs m0 w = Returned m0 w.
Proof.
  induction codecs as [| codec rest IH]; simpl; intros Hnone; [reflexivity |].
  destruct (std_find decoders (name (format codec))) eqn:E.
  - apply std_find_elem_of in E. exfalso. apply (Hnone codec); [left | exact E].
  - apply IH. intros codec' Hin. apply Hnone. by right.
Qed.

(** X7.  When none of the supported codecs is named in the request (the
    empty request included), SetDecoders still makes its one engine call
    and hands the engine an empty receive-codec map; GetPayloadType is
    never consulted, so this holds for any catalog. *)
Theorem SetDecoders_nothing_requested_sends_empty_map env w c (decoders : list string) :
  channel_ (this w) = Some c →
  (∀ codec, codec ∈ supported_codecs_ (this w) → name (format codec) ∉ decoders) →
  SetDecoders env true decoders w =
  (if bool_decide (SetReceiveCodecs_ret env = kOk)
   then Returned tt else Crashed CheckFailed)
    {| this := this w;
       trace := trace w ++ [EvEngine (VoipEngine.SetReceiveCodecs c ∅)
                                     (SetReceiveCodecs_ret env)] |}.
Proof.
  intros Hc Hnone.
  unfold SetDecoders, RUN_ON_VOIP_THREAD; simpl.
  unfold bind at 1. unfold get at 1. rewrite Hc.
  unfold bind at 1. rewrite SetDecoders_loop_none_requested by exact Hnone.
  unfold engine, bind, emit, ret, RTC_CHECK, fault; simpl.
  destruct (bool_decide (SetReceiveCodecs_ret env = kOk)); reflexivity.
Qed.

Lemma SetDecoders_nothing_requested_sends_empty_map_witness :
  channel_ (this (active_world [pcmu_spec; opus_spec])) = Some 0 ∧
  SetDecoders env_ok true [] (active_world [pcmu_spec; opus_spec]) =
  Returned tt
    {| this := active_client [pcmu_spec; opus_spec];
       trace := [EvEngine (VoipEngine.SetReceiveCodecs 0 ∅) kOk] |}.
Proof.
  split; [reflexivity |].
  apply (SetDecoders_nothing_requested_sends_empty_map
           env_ok (active_world [pcmu_spec; opus_spec]) 0 [] eq_refl).
  intros codec _ Hin. inversion Hin.
Defined.

(** X8.  On a name outside its six GetPayloadType has two behaviours: a
    build with RTC_DCHECK stops at the first assertion, a build without
    returns -1.  In the second kind of build SetEncoder therefore hands
    payload type -1 to the engine for a supported codec that the table
    does not know. *)
Theorem GetPayloadType_unknown_name env codec_name w :
  table_lookup codec_name = None →
  GetPayloadType env codec_name w =
    (if RTC_DCHECK_IS_ON env then Crashed DCheckFailed w else Returned (-1) w) ∧
  (RTC_DCHECK_IS_ON env = false →
   ∀ c fmt rest,
     name fmt = codec_name →
     SetEncoder_loop env c codec_name ({| format := fmt |} :: rest) w =
     (if bool_decide (SetSendCodec_ret env = kOk)
      then Returned tt else Crashed CheckFailed)
       {| this := this w;
          trace := trace w ++ [EvEngine (VoipEngine.SetSendCodec c (-1) fmt)
                                        (SetSendCodec_ret env)] |}).
Proof.
  intros Hnone.
  assert (Hget : GetPayloadType env codec_name w =
            (if RTC_DCHECK_IS_ON env then Crashed DCheckFailed w else Returned (-1) w)).
  { revert Hnone. unfold table_lookup, payload_type_table. cbn -[String.eqb].
    unfold GetPayloadType, RTC_DCHECK, bind, ret, fault.
    rewrite !(String.eqb_sym codec_name).
    repeat (match goal with
            | |- context [String.eqb ?a codec_name] =>
                destruct (String.eqb a codec_name); cbn -[String.eqb]
            end); try discriminate.
    intros _. destruct (RTC_DCHECK_IS_ON env); reflexivity. }
  split; [exact Hget |].
  intros Hoff c fmt rest Hname. simpl. rewrite Hname, String.eqb_refl.
  unfold bind at 1. rewrite Hget, Hoff.
  unfold engine, bind, emit, ret, RTC_CHECK, fault; simpl.
  destruct (bool_decide (SetSendCodec_ret env = kOk)); reflexivity.
Qed.

Lemma GetPayloadType_unknown_name_witness :
  table_lookup "L16" = None ∧
  GetPayloadType env_ok "L16" (Create []) = Crashed DCheckFailed (Create []).
Proof.
  split; [reflexivity |].
  destruct (GetPayloadType_unknown_name env_ok "L16" (Create []) eq_refl) as [H _].
  exact H.
Defined.

(** X9.  Whenever GetPayloadType returns for two names of the table, it
    returns different payload types for different names, and each lies in
    the 7-bit range of an RTP payload type; the world is untouched. *)
Theorem GetPayloadType_injective_in_range env n1 n2 pt1 pt2 w w1 w2 :
  is_Some (table_lookup n1) → is_Some (table_lookup n2) →
  GetPayloadType env n1 w = Returned pt1 w1 →
  GetPayloadType env n2 w = Returned pt2 w2 →
  w1 = w ∧ w2 = w ∧ 0 ≤ pt1 ≤ 127 ∧ 0 ≤ pt2 ≤ 127 ∧ (pt1 = pt2 → n1 = n2).
Proof.
  intros [k1 H1] [k2 H2] R1 R2.
  rewrite (GetPayloadType_table env n1 k1 w H1) in R1.
  rewrite (GetPayloadType_table env n2 k2 w H2) in R2.
  injection R1 as <- <-. injection R2 as <- <-.
  split; [reflexivity |]. split; [reflexivity |].
  pose proof (table_lookup_cases _ _ H1) as C1.
  pose proof (table_lookup_cases _ _ H2) as C2.
  split; [| split].
  - destruct C1 as [[_ ->] | [[_ ->] | [[_ ->] | [[_ ->] | [[_ ->] | [_ ->]]]]]]; lia.
  - destruct C2 as [[_ ->] | [[_ ->] | [[_ ->] | [[_ ->] | [[_ ->] | [_ ->]]]]]]; lia.
  - intros <-. eapply table_lookup_injective; eassumption.
Qed.

Lemma GetPayloadType_injective_in_range_witness :
  (is_Some (table_lookup "opus") ∧ is_Some (table_lookup "ISAC")) ∧
  (96 = 97 → "opus"%string = "ISAC"%string).
Proof.
  assert (H1 : is_Some (table_lookup "opus")) by (by eexists).
  assert (H2 : is_Some (table_lookup "ISAC")) by (by eexists).
  split; [split; assumption |].
  destruct (GetPayloadType_injective_in_range env_ok "opus" "ISAC" 96 97
              (Create []) (Create []) (Create []) H1 H2 eq_refl eq_refl)
    as (_ & _ & _ & _ & Hinj).
  exact Hinj.
Defined.

(** ** Sessions from start to stop *)

Lemma SetLocalAddress_in_range ip_address port_number w :
  INT_MIN ≤ port_number < INT_MAX →
  SetLocalAddress true ip_address port_number w =
  Returned tt
    {| this := set_rtcp_local_address_
                 {| hostname := ip_address; port := port_number + 1 |}
                 (set_rtp_local_address_
                    {| hostname := ip_address; port := port_number |} (this w));
       trace := trace w |}.
Proof.
  intros Hport.
  assert (Hrange : in_int_range (port_number + 1) = true).
  { unfold in_int_range, INT_MIN, INT_MAX in *.
    apply andb_true_intro; split; apply Z.leb_le; lia. }
  unfold_members; simpl. rewrite Hrange. reflexivity.
Qed.

Lemma SetRemoteAddress_in_range ip_address port_number w :
  INT_MIN ≤ port_number < INT_MAX →
  SetRemoteAddress true ip_address port_number w =
  Returned tt
    {| this := set_rtcp_remote_address_
                 {| hostname := ip_address; port := port_number + 1 |}
                 (set_rtp_remote_address_
                    {| hostname := ip_address; port := port_number |} (this w));
       trace := trace w |}.
Proof.
  intros Hport.
  assert (Hrange : in_int_range (port_number + 1) = true).
  { unfold in_int_range, INT_MIN, INT_MAX in *.
    apply andb_true_intro; split; apply Z.leb_le; lia. }
  unfold_members; simpl. rewrite Hrange. reflexivity.
Qed.

(** X10.  StartSession always returns, from any state and whatever the
    socket layer answers.  Its only engine call is the CreateChannel it
    begins with, so every run adds exactly the new channel to those the
    engine holds and gives none back: a channel the client held before
    stays allocated. *)
Theorem StartSession_allocates_and_never_releases env w :
  ∃ w' evs,
    StartSession env true w = Returned tt w' ∧
    trace w' = trace w ++ EvCreateChannel (CreateChannel_ret env) :: evs ∧
    engine_calls evs = [] ∧
    allocated (trace w') = {[ CreateChannel_ret env ]} ∪ allocated (trace w) ∧
    (∀ c, c ∈ allocated (trace w) → c ∈ allocated (trace w')).
Proof.
  assert (Hgen : ∃ w' evs,
    StartSession env true w = Returned tt w' ∧
    trace w' = trace w ++ EvCreateChannel (CreateChannel_ret env) :: evs ∧
    engine_calls evs = [] ∧
    allocated (trace w') = {[ CreateChannel_ret env ]} ∪ allocated (trace w)).
  { destruct (rtp_Create_ok env) eqn:Hrtp; [destruct (rtcp_Create_ok env) eqn:Hrtcp |];
      eexists _, _;
      (split; [first [apply StartSession_success; assumption
                     | apply StartSession_rtcp_failure; assumption
                     | apply StartSession_rtp_failure; assumption] |]);
      simpl; (split; [reflexivity |]);
      rewrite allocated_app;
      destruct (callback_ (this w)); split; reflexivity. }
  destruct Hgen as (w' & evs & Hrun & Htr & Heng & Hall).
  exists w', evs. repeat split; try assumption.
  intros c Hc. rewrite Hall. apply elem_of_union_r, Hc.
Qed.

(** X11.  A successful StartSession binds the sockets to the addresses
    the last SetLocalAddress stored: after SetLocalAddress(ip, port) the
    rtp socket is created for (ip, port) and the rtcp socket for
    (ip, port + 1), and both are open with their read handler connected. *)
Theorem SetLocalAddress_then_StartSession_binds env w ip_address port_number :
  INT_MIN ≤ port_number < INT_MAX →
  rtp_Create_ok env = true → rtcp_Create_ok env = true →
  ∃ w',
    (SetLocalAddress true ip_address port_number ;; StartSession env true) w
      = Returned tt w' ∧
    rtp_socket_ (this w') =
      Some (open_socket {| hostname := ip_address; port := port_number |}
                        rtc.OnSignalReadRTPPacket) ∧
    rtcp_socket_ (this w') =
      Some (open_socket {| hostname := ip_address; port := port_number + 1 |}
                        rtc.OnSignalReadRTCPPacket) ∧
    channel_ (this w') = Some (CreateChannel_ret env) ∧
    trace w' = trace w ++
      [EvCreateChannel (CreateChannel_ret env);
       EvSocketCreate rtp_socket {| hostname := ip_address; port := port_number |} true;
       EvConnect rtp_socket rtc.OnSignalReadRTPPacket;
       EvSocketCreate rtcp_socket
         {| hostname := ip_address; port := port_number + 1 |} true;
       EvConnect rtcp_socket rtc.OnSignalReadRTCPPacket] ++
      (if callback_ (this w) then [EvCallback (OnStartSessionCompleted true)] else []).
Proof.
  intros Hport Hrtp Hrtcp. eexists. split.
  - unfold bind at 1. rewrite SetLocalAddress_in_range by exact Hport.
    apply StartSession_success; assumption.
  - simpl. repeat split.
Qed.

Lemma SetLocalAddress_then_StartSession_binds_witness :
  (INT_MIN ≤ 10000 < INT_MAX ∧ rtp_Create_ok env_ok = true ∧
   rtcp_Create_ok env_ok = true) ∧
  ∃ w', (SetLocalAddress true "127.0.0.1" 10000 ;; StartSession env_ok true) (Create [])
          = Returned tt w' ∧
        rtcp_socket_ (this w') =
          Some (open_socket (loopback 10001) rtc.OnSignalReadRTCPPacket).
Proof.
  assert (H : INT_MIN ≤ 10000 < INT_MAX) by (unfold INT_MIN, INT_MAX; lia).
  split; [repeat split; apply H |].
  destruct (SetLocalAddress_then_StartSession_binds
              env_ok (Create []) "127.0.0.1" 10000 H eq_refl eq_refl)
    as (w' & Hrun & _ & Hrtcp & _).
  exists w'. split; [exact Hrun | exact Hrtcp].
Defined.

(** X12.  A successful StopSession followed by a successful StartSession
    gives a full session again: the old channel is released and the new
    one allocated, and both sockets are fresh, open, and bound to the
    stored local addresses. *)
Theorem StopSession_then_StartSession_restarts env env' w c s1 s2 :
  channel_ (this w) = Some c →
  rtp_socket_ (this w) = Some s1 →
  rtcp_socket_ (this w) = Some s2 →
  StopSend_ret env = kOk → StopPlayout_ret env = kOk → ReleaseChannel_ret env = kOk →
  rtp_Create_ok env' = true → rtcp_Create_ok env' = true →
  ∃ w',
    (StopSession env true ;; StartSession env' true) w = Returned tt w' ∧
    fully_started (this w') = true ∧
    channel_ (this w') = Some (CreateChannel_ret env') ∧
    rtp_socket_ (this w') =
      Some (open_socket (rtp_local_address_ (this w)) rtc.OnSignalReadRTPPacket) ∧
    rtcp_socket_ (this w') =
      Some (open_socket (rtcp_local_address_ (this w)) rtc.OnSignalReadRTCPPacket) ∧
    allocated (trace w') =
      {[ CreateChannel_ret env' ]} ∪ (allocated (trace w) ∖ {[ c ]}).
Proof.
  intros Hc Hs1 Hs2 H1 H2 H3 Hrtp Hrtcp. eexists. split.
  - unfold bind at 1.
    rewrite (StopSession_success_path env w c s1 s2 Hc Hs1 Hs2 H1 H2 H3).
    apply StartSession_success; assumption.
  - simpl. repeat split.
    rewrite <- !app_assoc, allocated_app.
    destruct (callback_ (this w)); reflexivity.
Qed.

Lemma StopSession_then_StartSession_restarts_witness :
  (channel_ (this (active_world [])) = Some 0 ∧ StopSend_ret env_ok = kOk ∧
   StopPlayout_ret env_ok = kOk ∧ ReleaseChannel_ret env_ok = kOk ∧
   rtp_Create_ok env_ok = true ∧ rtcp_Create_ok env_ok = true) ∧
  ∃ w', (StopSession env_ok true ;; StartSession env_ok true) (active_world [])
          = Returned tt w' ∧
        fully_started (this w') = true ∧ channel_ (this w') = Some 1.
Proof.
  split; [repeat split |].
  destruct (StopSession_then_StartSession_restarts env_ok env_ok (active_world []) 0 _ _
              eq_refl eq_refl eq_refl eq_refl eq_refl eq_refl eq_refl eq_refl)
    as (w' & Hrun & Hfull & Hc & _).
  exists w'. repeat split; assumption.
Defined.

(** ** Packets from hand-over to delivery *)

Lemma run_next_cons env w task q :
  voip_thread_ (this w) = task :: q →
  run_next env w = call env true task (with_queue q w).
Proof.
  intros Hq. unfold run_next, bind, get, modify; simpl. rewrite Hq.
  rewrite run_task_call. reflexivity.
Qed.

(** X13.  A datagram the rtp (rtcp) socket delivers while a channel is
    present and the queue is empty reaches the engine, when the worker
    runs the posted task, as one ReceivedRTPPacket (ReceivedRTCPPacket)
    call on that channel carrying exactly the first [size] bytes.  The
    task returns when the engine answers kOk and terminates the process
    at its RTC_CHECK otherwise; the client is unchanged in both cases. *)
Theorem inbound_packet_reaches_engine env w c (packet : list byte) (size : nat) :
  channel_ (this w) = Some c →
  voip_thread_ (this w) = [] →
  (size ≤ List.length packet)%nat →
  (OnSignalReadRTPPacket packet size ;; run_next env) w =
    (if bool_decide (ReceivedRTPPacket_ret env = kOk)
     then Returned tt else Crashed CheckFailed)
      {| this := this w;
         trace := trace w ++
                  [EvEngine (VoipEngine.ReceivedRTPPacket c (firstn size packet))
                            (ReceivedRTPPacket_ret env)] |} ∧
  (OnSignalReadRTCPPacket packet size ;; run_next env) w =
    (if bool_decide (ReceivedRTCPPacket_ret env = kOk)
     then Returned tt else Crashed CheckFailed)
      {| this := this w;
         trace := trace w ++
                  [EvEngine (VoipEngine.ReceivedRTCPPacket c (firstn size packet))
                            (ReceivedRTCPPacket_ret env)] |}.
Proof.
  destruct w as [v t]; destruct v; simpl. intros Hc Hq Hsize. subst.
  assert (Hle : (size <=? List.length packet)%nat = true) by (apply Nat.leb_le; lia).
  split; unfold_members; unfold run_next; unfold_members; simpl; rewrite Hle; simpl;
    unfold_members; simpl.
  - destruct (bool_decide (ReceivedRTPPacket_ret env = kOk)); reflexivity.
  - destruct (bool_decide (ReceivedRTCPPacket_ret env = kOk)); reflexivity.
Qed.

Lemma inbound_packet_reaches_engine_witness :
  (channel_ (this (active_world [])) = Some 0 ∧
   voip_thread_ (this (active_world [])) = [] ∧
   (2 ≤ List.length [x80; x00; x01]%byte)%nat) ∧
  (OnSignalReadRTPPacket [x80; x00; x01]%byte 2 ;; run_next env_ok) (active_world []) =
  Returned tt
    {| this := active_client [];
       trace := [EvEngine (VoipEngine.ReceivedRTPPacket 0 [x80; x00]%byte) kOk] |}.
Proof.
  assert (H : (2 ≤ List.length [x80; x00; x01]%byte)%nat) by (simpl; lia).
  split; [repeat split; exact H |].
  destruct (inbound_packet_reaches_engine
              env_ok (active_world []) 0 [x80; x00; x01]%byte 2 eq_refl eq_refl H)
    as [Hrtp _].
  exact Hrtp.
Defined.

(** X14.  After SetRemoteAddress(ip, port), a packet the engine hands to
    SendRtp goes out, when the worker runs the posted task, through the
    rtp socket to (ip, port), and one handed to SendRtcp through the rtcp
    socket to (ip, port + 1), each as exactly the first [length] bytes.
    A zero result of SendTo adds the "Failed to send" log line. *)
Theorem outbound_packets_go_to_remote_pair env env' w s1 s2
    ip_address port_number (packet : list byte) (length : nat) (options : PacketOptions) :
  INT_MIN ≤ port_number < INT_MAX →
  rtp_socket_ (this w) = Some s1 →
  rtcp_socket_ (this w) = Some s2 →
  voip_thread_ (this w) = [] →
  (length ≤ List.length packet)%nat →
  ∃ w',
    (SetRemoteAddress true ip_address port_number ;;
     SendRtp packet length options ;;
     SendRtcp packet length ;;
     run_next env ;;
     run_next env') w = Returned tt w' ∧
    voip_thread_ (this w') = [] ∧
    trace w' = trace w ++
      EvSendTo rtp_socket (firstn length packet)
               {| hostname := ip_address; port := port_number |} (rtp_SendTo_ret env) ::
      (if rtp_SendTo_ret env =? 0 then [EvLog "Failed to send RTP packet"] else []) ++
      EvSendTo rtcp_socket (firstn length packet)
               {| hostname := ip_address; port := port_number + 1 |}
               (rtcp_SendTo_ret env') ::
      (if rtcp_SendTo_ret env' =? 0 then [EvLog "Failed to send RTCP packet"] else []).
Proof.
  destruct w as [v t]; destruct v; simpl. intros Hport Hs1 Hs2 Hq Hlen. subst.
  assert (Hle : (length <=? List.length packet)%nat = true) by (apply Nat.leb_le; lia).
  assert (Hrange : in_int_range (port_number + 1) = true).
  { unfold in_int_range, INT_MIN, INT_MAX in *.
    apply andb_true_intro; split; apply Z.leb_le; lia. }
  destruct (rtp_SendTo_ret env =? 0) eqn:E1; destruct (rtcp_SendTo_ret env' =? 0) eqn:E2;
    eexists;
    (split;
     [unfold_members; unfold run_next; unfold_members; simpl;
      rewrite Hrange; simpl; rewrite Hle; simpl; unfold_members; simpl;
      rewrite E1; simpl; unfold_members; simpl; rewrite E2; simpl; reflexivity
     | simpl; (split; [reflexivity |]); flatten_trace; reflexivity]).
Qed.

Lemma outbound_packets_go_to_remote_pair_witness :
  (INT_MIN ≤ 20000 < INT_MAX ∧ voip_thread_ (this (active_world [])) = [] ∧
   (3 ≤ List.length [x80; x00; x01]%byte)%nat) ∧
  ∃ w', (SetRemoteAddress true "10.0.0.7" 20000 ;;
         SendRtp [x80; x00; x01]%byte 3 {| packet_id := 0 |} ;;
         SendRtcp [x80; x00; x01]%byte 3 ;;
         run_next env_ok ;; run_next env_ok) (active_world []) = Returned tt w' ∧
        trace w' =
          [EvSendTo rtp_socket [x80; x00; x01]%byte
                    {| hostname := "10.0.0.7"; port := 20000 |} 3;
           EvSendTo rtcp_socket [x80; x00; x01]%byte
                    {| hostname := "10.0.0.7"; port := 20001 |} 3].
Proof.
  assert (H : INT_MIN ≤ 20000 < INT_MAX) by (unfold INT_MIN, INT_MAX; lia).
  assert (H' : (3 ≤ List.length [x80; x00; x01]%byte)%nat) by (simpl; lia).
  split; [repeat split; first [apply H | exact H'] |].
  destruct (outbound_packets_go_to_remote_pair
              env_ok env_ok (active_world []) _ _ "10.0.0.7" 20000
              [x80; x00; x01]%byte 3 {| packet_id := 0 |} H eq_refl eq_refl eq_refl H')
    as (w' & Hrun & _ & Htrace).
  exists w'. split; [exact Hrun | exact Htrace].
Defined.

(** ** Order of execution *)













(** ** What no run ever does *)

Lemma SetEncoder_loop_callbacks env channel encoder codecs w w' :
  SetEncoder_loop env channel encoder codecs w = Returned tt w' →
  callbacks (trace w') = callbacks (trace w).
Proof.
  induction codecs as [| codec rest IH]; simpl.
  - unfold ret. intros H. by simplify_eq.
  - destruct (String.eqb (name (format codec)) encoder); [| exact IH].
    unfold bind. destruct (GetPayloadType env _ w) as [pt w1 | f w1] eqn:E; [| discriminate].
    apply GetPayloadType_Returned in E as ->.
    unfold engine, bind, emit, ret, RTC_CHECK, fault; simpl.
    case_match; unfold ret; intros ?; simplify_eq; simpl.
    rewrite callbacks_app, app_nil_r. reflexivity.
Qed.

Ltac keep_silent :=
  unfold silent in *; simpl in *; destruct_and?; simplify_eq;
  rewrite ?callbacks_app; simpl; rewrite ?app_nil_r;
  repeat split; first [assumption | reflexivity | congruence].

Lemma SetEncoder_silent env IsCurrent encoder codecs w w' :
  SetEncoder env IsCurrent encoder w = Returned tt w' →
  silent codecs w → silent codecs w'.
Proof.
  destruct w as [v t]. intros H Hs.
  destruct IsCurrent; unfold SetEncoder, RUN_ON_VOIP_THREAD in H; simpl in H.
  - unfold bind at 1 in H. unfold get at 1 in H. cbn [this] in H.
    destruct (channel_ v).
    + pose proof (SetEncoder_loop_this _ _ _ _ _ _ H) as Hthis.
      pose proof (SetEncoder_loop_callbacks _ _ _ _ _ _ H) as Hcb.
      unfold silent in *. simpl in *. rewrite Hthis, Hcb. exact Hs.
    + crunch H. keep_silent.
  - crunch H. keep_silent.
Qed.

Lemma SetDecoders_silent env IsCurrent decoders codecs w w' :
  SetDecoders env IsCurrent decoders w = Returned tt w' →
  silent codecs w → silent codecs w'.
Proof.
  destruct w as [v t]. intros H Hs.
  destruct IsCurrent; unfold SetDecoders, RUN_ON_VOIP_THREAD in H; simpl in H.
  - unfold bind at 1 in H. unfold get at 1 in H. cbn [this] in H.
    destruct (channel_ v).
    + unfold bind at 1 in H.
      destruct (SetDecoders_loop env decoders _ ∅ _) as [m w1 | f w1] eqn:E;
        [| discriminate].
      apply SetDecoders_loop_world in E as ->.
      crunch H. keep_silent.
    + crunch H. keep_silent.
  - crunch H. keep_silent.
Qed.

Lemma call_silent env IsCurrent method codecs w w' :
  call env IsCurrent method w = Returned tt w' →
  silent codecs w → silent codecs w'.
Proof.
  destruct method; simpl;
    [apply SetEncoder_silent | apply SetDecoders_silent | ..];
    destruct w as [v t]; intros H Hs;
    try destruct IsCurrent; crunch H; keep_silent.
Qed.

Lemma step_silent codecs w w' :
  step w w' → silent codecs w → silent codecs w'.
Proof.
  intros Hstep Hs. destruct Hstep as
    [env IsCurrent method w w' H | packet length options b w w' H
    | packet length b w w' H | rtp_packet size w w' H | rtcp_packet size w w' H
    | env w w' H].
  - eapply call_silent; eassumption.
  - destruct w as [v t]. crunch H. keep_silent.
  - destruct w as [v t]. crunch H. keep_silent.
  - destruct w as [v t]. crunch H. keep_silent.
  - destruct w as [v t]. crunch H. keep_silent.
  - destruct w as [v t]. unfold run_next, bind, get, modify, ret in H; simpl in H.
    destruct (voip_thread_ v) as [| task q] eqn:Hq; [by simplify_eq |].
    rewrite run_task_call in H.
    eapply call_silent; [exact H |]. exact Hs.
Qed.

(** X16.  The class has no way to attach a subscriber: [callback_] is
    empty after construction and no member function assigns it.  So in
    every state any sequence of calls, packet hand-overs and task runs
    can reach from a fresh client, the subscriber is still absent, the
    codec catalog is the one of construction, and not one of the six
    completion notifications has ever been delivered. *)
Theorem reachable_never_notifies codecs w :
  reachable codecs w →
  callback_ (this w) = false ∧
  supported_codecs_ (this w) = codecs ∧
  GetSupportedCodecs (this w) = map (fun spec => name (format spec)) codecs ∧
  callbacks (trace w) = [].
Proof.
  intros Hreach.
  assert (Hs : silent codecs w).
  { induction Hreach as [| w w' _ IH Hstep]; [repeat split |].
    eapply step_silent; eassumption. }
  destruct Hs as (Hcb & Hcodecs & Hnone).
  unfold GetSupportedCodecs. rewrite Hcodecs. repeat split; assumption.
Qed.

Lemma reachable_never_notifies_witness :
  ∃ w, reachable [opus_spec] w ∧ fully_started (this w) = true ∧
       callbacks (trace w) = [].
Proof.
  assert (Hpost : step (Create [opus_spec])
                       {| this := set_voip_thread_ [TStartSession] (this (Create [opus_spec]));
                          trace := [] |}).
  { apply (step_call env_ok false TStartSession). reflexivity. }
  assert (Hrun : step {| this := set_voip_thread_ [TStartSession] (this (Create [opus_spec]));
                         trace := [] |}
                      {| this := set_rtcp_socket_
                                   (Some (open_socket SocketAddress_default
                                            rtc.OnSignalReadRTCPPacket))
                                   (set_rtp_socket_
                                      (Some (open_socket SocketAddress_default
                                               rtc.OnSignalReadRTPPacket))
                                      (set_channel_ (Some 1) (this (Create [opus_spec]))));
                         trace := [EvCreateChannel 1;
                                   EvSocketCreate rtp_socket SocketAddress_default true;
                                   EvConnect rtp_socket rtc.OnSignalReadRTPPacket;
                                   EvSocketCreate rtcp_socket SocketAddress_default true;
                                   EvConnect rtcp_socket rtc.OnSignalReadRTCPPacket] |}).
  { apply (step_run env_ok). reflexivity. }
  pose proof (reachable_step _ _ _
                (reachable_step _ _ _ (reachable_Create [opus_spec]) Hpost) Hrun)
    as Hreach.
  eexists. split; [exact Hreach |]. split; [reflexivity |].
  exact (proj2 (proj2 (proj2 (reachable_never_notifies _ _ Hreach)))).
Defined.

(** ** The conductor driving the client *)

Lemma SetEncoder_with_channel env w c encoder codec pt :
  channel_ (this w) = Some c →
  first_named encoder (supported_codecs_ (this w)) = Some codec →
  table_lookup encoder = Some pt →
  SetSendCodec_ret env = kOk →
  SetEncoder env true encoder w =
  Returned tt
    {| this := this w;
       trace := trace w ++ [EvEngine (VoipEngine.SetSendCodec c pt (format codec)) kOk] |}.
Proof.
  intros Hc Hfind Hpt Hok.
  unfold SetEncoder, RUN_ON_VOIP_THREAD, bind, get; simpl. rewrite Hc.
  rewrite (SetEncoder_loop_first_named_Some env c encoder _ codec pt w Hfind Hpt).
  rewrite Hok. reflexivity.
Qed.

Lemma SetDecoders_with_channel env w c decoders :
  channel_ (this w) = Some c →
  Forall (fun codec => is_Some (table_lookup (name (format codec))))
         (supported_codecs_ (this w)) →
  SetReceiveCodecs_ret env = kOk →
  ∃ m,
    SetDecoders env true decoders w =
    Returned tt
      {| this := this w;
         trace := trace w ++ [EvEngine (VoipEngine.SetReceiveCodecs c m) kOk] |} ∧
    ∀ pt, m !! pt = format <$> first_requested decoders pt (supported_codecs_ (this w)).
Proof.
  intros Hc Hall Hok.
  destruct (SetDecoders_loop_lookup env decoders _ ∅ w Hall) as (m & Hloop & Hm).
  exists m. split.
  - unfold SetDecoders, RUN_ON_VOIP_THREAD; simpl.
    unfold bind at 1. unfold get at 1. rewrite Hc.
    unfold bind at 1. rewrite Hloop.
    unfold engine, bind, emit, ret, RTC_CHECK, fault; simpl.
    rewrite Hok. reflexivity.
  - intros pt. rewrite Hm, lookup_empty. reflexivity.
Qed.

(** Called from the GUI thread, OnSessionEvent only logs and posts. *)
Lemma OnSessionEvent_on_posts env w local_ip local_port remote_ip remote_port
    encoder decoders :
  voip_thread_ (this w) = [] →
  Conductor.OnSessionEvent env false true local_ip local_port remote_ip remote_port
    encoder decoders w =
  Returned tt
    (with_queue [TSetLocalAddress local_ip local_port;
                 TSetRemoteAddress remote_ip remote_port;
                 TStartSession; TSetEncoder encoder; TSetDecoders decoders]
       {| this := this w; trace := trace w ++ [EvLog "OnSessionEvent"] |}).
Proof.
  destruct w as [v t]; destruct v; simpl. intros ->. reflexivity.
Qed.

Lemma OnSessionEvent_off_posts env w local_ip local_port remote_ip remote_port
    encoder decoders :
  voip_thread_ (this w) = [] →
  Conductor.OnSessionEvent env false false local_ip local_port remote_ip remote_port
    encoder decoders w =
  Returned tt
    (with_queue [TStopSession]
       {| this := this w; trace := trace w ++ [EvLog "OnSessionEvent"] |}).
Proof.
  destruct w as [v t]; destruct v; simpl. intros ->. reflexivity.
Qed.

(** X17.  One "session on" event from the GUI thread, followed by the
    worker running the five tasks it posted, brings an idle client to a
    full session: sockets open on (local_ip, local_port) and
    (local_ip, local_port + 1), remote endpoints (remote_ip, remote_port)
    and (remote_ip, remote_port + 1), and on the new channel first the
    send codec, then the receive codecs, in that order. *)
Theorem Conductor_session_on_starts_and_configures env w
    local_ip local_port remote_ip remote_port encoder decoders codec pt :
  voip_thread_ (this w) = [] →
  INT_MIN ≤ local_port < INT_MAX → INT_MIN ≤ remote_port < INT_MAX →
  rtp_Create_ok env = true → rtcp_Create_ok env = true →
  first_named encoder (supported_codecs_ (this w)) = Some codec →
  table_lookup encoder = Some pt →
  Forall (fun codec => is_Some (table_lookup (name (format codec))))
         (supported_codecs_ (this w)) →
  SetSendCodec_ret env = kOk → SetReceiveCodecs_ret env = kOk →
  ∃ w' m,
    (Conductor.OnSessionEvent env false true local_ip local_port remote_ip remote_port
       encoder decoders ;;
     run_tasks [env; env; env; env; env]) w = Returned tt w' ∧
    voip_thread_ (this w') = [] ∧
    channel_ (this w') = Some (CreateChannel_ret env) ∧
    rtp_socket_ (this w') =
      Some (open_socket {| hostname := local_ip; port := local_port |}
                        rtc.OnSignalReadRTPPacket) ∧
    rtcp_socket_ (this w') =
      Some (open_socket {| hostname := local_ip; port := local_port + 1 |}
                        rtc.OnSignalReadRTCPPacket) ∧
    rtp_remote_address_ (this w') = {| hostname := remote_ip; port := remote_port |} ∧
    rtcp_remote_address_ (this w') =
      {| hostname := remote_ip; port := remote_port + 1 |} ∧
    engine_calls (drop (length (trace w)) (trace w')) =
      [VoipEngine.SetSendCodec (CreateChannel_ret env) pt (format codec);
       VoipEngine.SetReceiveCodecs (CreateChannel_ret env) m] ∧
    (∀ k, m !! k = format <$> first_requested decoders k (supported_codecs_ (this w))).
Proof.
  intros Hq Hlp Hrp Hrtp Hrtcp Hfind Hpt Hall Hsend Hrecv.
  unfold bind at 1. rewrite OnSessionEvent_on_posts by exact Hq.
  cbn [run_tasks]. unfold bind at 1.
  erewrite run_next_cons by reflexivity. cbn [call].
  rewrite SetLocalAddress_in_range by exact Hlp.
  unfold bind at 1. erewrite run_next_cons by reflexivity. cbn [call].
  rewrite SetRemoteAddress_in_range by exact Hrp.
  unfold bind at 1. erewrite run_next_cons by reflexivity. cbn [call].
  rewrite StartSession_success by assumption.
  unfold bind at 1. erewrite run_next_cons by reflexivity. cbn [call].
  erewrite (SetEncoder_with_channel env _ (CreateChannel_ret env) encoder codec pt);
    [| reflexivity | exact Hfind | exact Hpt | exact Hsend].
  unfold bind at 1. erewrite run_next_cons by reflexivity. cbn [call].
  match goal with
  | |- context [SetDecoders env true decoders ?w0] =>
      destruct (SetDecoders_with_channel env w0 (CreateChannel_ret env) decoders
                  eq_refl Hall Hrecv) as (m & Hrun & Hm)
  end.
  rewrite Hrun. eexists _, m. split; [reflexivity |].
  simpl. repeat split; try exact Hm.
  rewrite <- !app_assoc, drop_app_length.
  destruct (callback_ (this w)); reflexivity.
Qed.

Lemma Conductor_session_on_starts_and_configures_witness :
  (voip_thread_ (this (Create [pcmu_spec; opus_spec])) = [] ∧
   INT_MIN ≤ 10000 < INT_MAX ∧ INT_MIN ≤ 20000 < INT_MAX ∧
   first_named "opus" [pcmu_spec; opus_spec] = Some opus_spec ∧
   table_lookup "opus" = Some 96) ∧
  ∃ w', (Conductor.OnSessionEvent env_ok false true "127.0.0.1" 10000 "127.0.0.1" 20000
           "opus" ["PCMU"; "opus"]%string ;;
         run_tasks [env_ok; env_ok; env_ok; env_ok; env_ok])
          (Create [pcmu_spec; opus_spec]) = Returned tt w' ∧
        fully_started (this w') = true ∧
        rtcp_remote_address_ (this w') = loopback 20001.
Proof.
  assert (H1 : INT_MIN ≤ 10000 < INT_MAX) by (unfold INT_MIN, INT_MAX; lia).
  assert (H2 : INT_MIN ≤ 20000 < INT_MAX) by (unfold INT_MIN, INT_MAX; lia).
  assert (Hall : Forall (fun codec => is_Some (table_lookup (name (format codec))))
                        (supported_codecs_ (this (Create [pcmu_spec; opus_spec])))).
  { simpl. repeat constructor; by eexists. }
  split; [repeat split; first [apply H1 | apply H2] |].
  destruct (Conductor_session_on_starts_and_configures
              env_ok (Create [pcmu_spec; opus_spec])
              "127.0.0.1" 10000 "127.0.0.1" 20000 "opus" ["PCMU"; "opus"]%string
              opus_spec 96 eq_refl H1 H2 eq_refl eq_refl eq_refl eq_refl Hall
              eq_refl eq_refl)
    as (w' & m & Hrun & _ & Hc & Hrtp & Hrtcp & _ & Hremote & _).
  exists w'. split; [exact Hrun |]. split; [| exact Hremote].
  unfold fully_started. rewrite Hc, Hrtp, Hrtcp. reflexivity.
Defined.

(** X18.  When the rtp socket cannot be bound, the "session on" event
    still configures the engine: the queued SetEncoder and SetDecoders
    find the channel StartSession left behind and set the send and
    receive codecs on it.  The "session off" event that follows then
    stops send and playout on that channel and crashes on the null rtp
    socket, with the channel never released. *)
Theorem Conductor_session_off_after_failed_on_crashes env env' w
    local_ip local_port remote_ip remote_port encoder decoders codec pt
    ip' port' rip' rport' encoder' decoders' :
  voip_thread_ (this w) = [] →
  INT_MIN ≤ local_port < INT_MAX → INT_MIN ≤ remote_port < INT_MAX →
  rtp_Create_ok env = false →
  first_named encoder (supported_codecs_ (this w)) = Some codec →
  table_lookup encoder = Some pt →
  Forall (fun codec => is_Some (table_lookup (name (format codec))))
         (supported_codecs_ (this w)) →
  SetSendCodec_ret env = kOk → SetReceiveCodecs_ret env = kOk →
  StopSend_ret env' = kOk → StopPlayout_ret env' = kOk →
  ∃ w' m,
    (Conductor.OnSessionEvent env false true local_ip local_port remote_ip remote_port
       encoder decoders ;;
     run_tasks [env; env; env; env; env] ;;
     Conductor.OnSessionEvent env' false false ip' port' rip' rport' encoder' decoders' ;;
     run_tasks [env']) w = Crashed NullDereference w' ∧
    channel_ (this w') = Some (CreateChannel_ret env) ∧
    rtp_socket_ (this w') = None ∧
    engine_calls (drop (length (trace w)) (trace w')) =
      [VoipEngine.SetSendCodec (CreateChannel_ret env) pt (format codec);
       VoipEngine.SetReceiveCodecs (CreateChannel_ret env) m;
       VoipEngine.StopSend (CreateChannel_ret env);
       VoipEngine.StopPlayout (CreateChannel_ret env)] ∧
    CreateChannel_ret env ∈ allocated (trace w').
Proof.
  intros Hq Hlp Hrp Hrtp Hfind Hpt Hall Hsend Hrecv Hstop1 Hstop2.
  unfold bind at 1. rewrite OnSessionEvent_on_posts by exact Hq.
  cbn [run_tasks]. unfold bind at 1. unfold bind at 1.
  erewrite run_next_cons by reflexivity. cbn [call].
  rewrite SetLocalAddress_in_range by exact Hlp.
  unfold bind at 1. erewrite run_next_cons by reflexivity. cbn [call].
  rewrite SetRemoteAddress_in_range by exact Hrp.
  unfold bind at 1. erewrite run_next_cons by reflexivity. cbn [call].
  rewrite StartSession_rtp_failure by assumption.
  unfold bind at 1. erewrite run_next_cons by reflexivity. cbn [call].
  erewrite (SetEncoder_with_channel env _ (CreateChannel_ret env) encoder codec pt);
    [| reflexivity | exact Hfind | exact Hpt | exact Hsend].
  unfold bind at 1. erewrite run_next_cons by reflexivity. cbn [call].
  match goal with
  | |- context [SetDecoders env true decoders ?w0] =>
      destruct (SetDecoders_with_channel env w0 (CreateChannel_ret env) decoders
                  eq_refl Hall Hrecv) as (m & Hrun & Hm)
  end.
  rewrite Hrun. cbn [ret]. unfold bind at 1.
  rewrite OnSessionEvent_off_posts by reflexivity.
  unfold bind at 1. erewrite run_next_cons by reflexivity. cbn [call].
  eexists _, m. split.
  - unfold_members; simpl. rewrite Hstop1; simpl. rewrite Hstop2; simpl. reflexivity.
  - simpl. repeat split.
    + rewrite <- !app_assoc, drop_app_length.
      destruct (callback_ (this w)); reflexivity.
    + rewrite <- !app_assoc, allocated_app.
      destruct (callback_ (this w)); simpl;
        apply elem_of_union_l, elem_of_singleton; reflexivity.
Qed.

Lemma Conductor_session_off_after_failed_on_crashes_witness :
  (voip_thread_ (this (Create [pcmu_spec; opus_spec])) = [] ∧
   rtp_Create_ok env_rtp_busy = false ∧
   StopSend_ret env_ok = kOk ∧ StopPlayout_ret env_ok = kOk) ∧
  ∃ w', (Conductor.OnSessionEvent env_rtp_busy false true
           "127.0.0.1" 10000 "127.0.0.1" 20000 "opus" ["PCMU"; "opus"]%string ;;
         run_tasks [env_rtp_busy; env_rtp_busy; env_rtp_busy; env_rtp_busy; env_rtp_busy] ;;
         Conductor.OnSessionEvent env_ok false false "" 0 "" 0
           "opus" ["PCMU"; "opus"]%string ;;
         run_tasks [env_ok]) (Create [pcmu_spec; opus_spec])
          = Crashed NullDereference w' ∧
        channel_ (this w') = Some 1.
Proof.
  assert (H1 : INT_MIN ≤ 10000 < INT_MAX) by (unfold INT_MIN, INT_MAX; lia).
  assert (H2 : INT_MIN ≤ 20000 < INT_MAX) by (unfold INT_MIN, INT_MAX; lia).
  assert (Hall : Forall (fun codec => is_Some (table_lookup (name (format codec))))
                        (supported_codecs_ (this (Create [pcmu_spec; opus_spec])))).
  { simpl. repeat constructor; by eexists. }
  split; [repeat split |].
  destruct (Conductor_session_off_after_failed_on_crashes
              env_rtp_busy env_ok (Create [pcmu_spec; opus_spec])
              "127.0.0.1" 10000 "127.0.0.1" 20000 "opus" ["PCMU"; "opus"]%string
              opus_spec 96 "" 0 "" 0 "opus" ["PCMU"; "opus"]%string
              eq_refl H1 H2 eq_refl eq_refl eq_refl Hall
              eq_refl eq_refl eq_refl eq_refl)
    as (w' & m & Hrun & Hc & _).
  exists w'. split; [exact Hrun | exact Hc].
Defined.

(** ** The local address probe *)

(** X19.  GetLocalIPAddress always returns and leaves the client alone;
    at most it writes log lines.  It answers with the IPv4 address when
    the IPv4 probe has one (socket created, Connect not negative, address
    not nil), and then the IPv6 probe is not even consulted; otherwise
    with the IPv6 address when that probe has one; otherwise with the
    empty string. *)
Theorem GetLocalIPAddress_prefers_IPv4 env (probe : Z → Probe) w :
  ∃ evs,
    GetLocalIPAddress env probe w =
    Returned
      (match probed_address (probe AF_INET) with
       | Some s => s
       | None => match probed_address (probe AF_INET6) with
                 | Some s => s
                 | None => ""%string
                 end
       end)
      {| this := this w; trace := trace w ++ evs |} ∧
    engine_calls evs = [] ∧ callbacks evs = [] ∧
    (is_Some (probed_address (probe AF_INET)) → evs = []).
Proof.
  destruct w as [v t].
  unfold GetLocalIPAddress, QueryDefaultLocalAddress, probed_address,
    RTC_DCHECK, RTC_LOG, bind, ret, emit, fault; simpl.
  rewrite !andb_false_r.
  destruct (probe AF_INET) as [ok4 con4 err4 ip4];
    destruct (probe AF_INET6) as [ok6 con6 err6 ip6]; simpl.
  destruct ok4; simpl;
    [destruct (con4 <? 0); simpl;
     [destruct (negb (err4 =? ENETUNREACH) && negb (err4 =? EHOSTUNREACH)); simpl
     | destruct ip4 as [s4 |]; simpl] |];
    try (destruct ok6; simpl;
         [destruct (con6 <? 0); simpl;
          [destruct (negb (err6 =? ENETUNREACH) && negb (err6 =? EHOSTUNREACH)); simpl
          | destruct ip6 as [s6 |]; simpl] |]);
    rewrite <- ?app_assoc; simpl;
    first [ exists []; rewrite app_nil_r;
            repeat split; first [reflexivity | intros [? ?]; discriminate]
          | eexists; split; [reflexivity |];
            repeat split; first [reflexivity | intros [? ?]; discriminate] ].
Qed.

(** ** The decoder label *)

Lemma append_nil_r (s : string) : s +:+ "" = s.
Proof.
  induction s as [| a s IH]; [reflexivity |].
  change (String a s +:+ "") with (String a (s +:+ "")). by rewrite IH.
Qed.

Lemma append_assoc (s1 s2 s3 : string) : (s1 +:+ s2) +:+ s3 = s1 +:+ (s2 +:+ s3).
Proof.
  induction s1 as [| a s1 IH]; [reflexivity |].
  change ((String a s1 +:+ s2) +:+ s3) with (String a ((s1 +:+ s2) +:+ s3)).
  change (String a s1 +:+ s2 +:+ s3) with (String a (s1 +:+ s2 +:+ s3)).
  by rewrite IH.
Qed.

Lemma UpdateDecodersInfo_loop_prefix (init rest : list string) (i : Z) (text : string) :
  UpdateDecodersInfo_loop (init ++ rest) i (i + Z.of_nat (length init)) text =
  inr (text +:+ (foldr (fun d acc => (d +:+ ", ") +:+ acc) "" init)).
Proof.
  revert i text. induction init as [| d init IH]; intros i text.
  - cbn [app length foldr]. rewrite append_nil_r. change (Z.of_nat 0) with 0.
    rewrite Z.add_0_r.
    destruct rest; cbn [UpdateDecodersInfo_loop]; rewrite Z.ltb_irrefl; reflexivity.
  - cbn [app UpdateDecodersInfo_loop foldr].
    assert (Hlt : (i <? i + Z.of_nat (length (d :: init))) = true)
      by (apply Z.ltb_lt; simpl; lia).
    rewrite Hlt.
    replace (i + Z.of_nat (length (d :: init)))
      with ((i + 1) + Z.of_nat (length init)) by (simpl; lia).
    rewrite IH. rewrite append_assoc. reflexivity.
Qed.

Lemma concat_snoc (init : list string) (l : string) :
  String.concat ", " (init ++ [l]) =
  (foldr (fun d acc => (d +:+ ", ") +:+ acc) "" init) +:+ l.
Proof.
  induction init as [| d init IH]; [reflexivity |].
  destruct init as [| d' init'].
  - cbn [app foldr]. rewrite append_nil_r, append_assoc. reflexivity.
  - change (String.concat ", " ((d :: d' :: init') ++ [l]))
      with (d +:+ ", " +:+ String.concat ", " ((d' :: init') ++ [l])).
    rewrite IH. cbn [foldr]. rewrite !append_assoc. reflexivity.
Qed.

(** X20.  For a list of at least one decoder UpdateDecodersInfo stores
    the list and shows its names separated by ", ", with no separator
    after the last.  For the empty list the loop bound size() - 1 wraps
    around and the first iteration reads element 0 of an empty vector. *)
Theorem UpdateDecodersInfo_joins_names :
  UpdateDecodersInfo [] = inl OutOfBounds ∧
  ∀ d ds, UpdateDecodersInfo (d :: ds) = inr (d :: ds, String.concat ", " (d :: ds)).
Proof.
  split; [reflexivity |].
  intros d ds.
  destruct (exists_last (l := d :: ds) ltac:(discriminate)) as (init & l & Heq).
  rewrite Heq. unfold UpdateDecodersInfo.
  assert (Hbound : size_t_sub (Z.of_nat (length (init ++ [l]))) 1 =
                   0 + Z.of_nat (length init)).
  { unfold size_t_sub. rewrite length_app. simpl.
    destruct (1 <=? Z.of_nat (length init + 1)) eqn:E; [lia |].
    apply Z.leb_gt in E. lia. }
  rewrite Hbound, UpdateDecodersInfo_loop_prefix, last_snoc.
  simpl. rewrite concat_snoc. reflexivity.
Qed.

(** ** A refused release *)

(** X21.  When the engine has stopped send and playout but refuses
    ReleaseChannel, StopSession ends at its RTC_CHECK: the process is
    terminated with both sockets already closed, the channel handle still
    set, and no completion reported. *)
Theorem StopSession_release_refused_is_fatal env w c s1 s2 :
  channel_ (this w) = Some c →
  rtp_socket_ (this w) = Some s1 →
  rtcp_socket_ (this w) = Some s2 →
  StopSend_ret env = kOk → StopPlayout_ret env = kOk → ReleaseChannel_ret env ≠ kOk →
  StopSession env true w =
  Crashed CheckFailed
    {| this := set_rtcp_socket_ (Some (Close s2))
                 (set_rtp_socket_ (Some (Close s1)) (this w));
       trace := trace w ++
                [EvEngine (VoipEngine.StopSend c) kOk;
                 EvEngine (VoipEngine.StopPlayout c) kOk;
                 EvClose rtp_socket; EvClose rtcp_socket;
                 EvEngine (VoipEngine.ReleaseChannel c) (ReleaseChannel_ret env)] |}.
Proof.
  destruct w as [v t]; simpl. intros Hc Hs1 Hs2 H1 H2 H3.
  unfold_members; simpl. rewrite Hc, H1; simpl. rewrite H2; simpl.
  rewrite Hs1; simpl. rewrite Hs2; simpl.
  rewrite bool_decide_eq_false_2 by exact H3. simpl.
  flatten_trace. reflexivity.
Qed.

Lemma StopSession_release_refused_is_fatal_witness :
  (channel_ (this (active_world [])) = Some 0 ∧
   StopSend_ret env_release_refused = kOk ∧ StopPlayout_ret env_release_refused = kOk ∧
   ReleaseChannel_ret env_release_refused ≠ kOk) ∧
  ∃ w', StopSession env_release_refused true (active_world []) = Crashed CheckFailed w' ∧
        channel_ (this w') = Some 0 ∧
        (closed <$> rtp_socket_ (this w')) = Some true.
Proof.
  assert (H : ReleaseChannel_ret env_release_refused ≠ kOk) by discriminate.
  split; [repeat split; exact H |].
  eexists. split.
  - exact (StopSession_release_refused_is_fatal
             env_release_refused (active_world []) 0 _ _
             eq_refl eq_refl eq_refl eq_refl eq_refl H).
  - split; reflexivity.
Defined.
